(** * alt-xsrf: the anti-XSRF middleware of [index.js]

    A shallow embedding of [module.exports] (the middleware factory), of the
    middleware it returns and of [obtainSecret], followed by the properties
    of the specification.

    Conventions of the embedding:
    - JavaScript values are the inductive [JsValue]; [truthy] is ToBoolean.
    - The session ([req.session], alt-session), the token library
      ([require('csrf')]) and user supplied callbacks are collaborators that
      live outside [index.js]; they are interfaces ([SessionStore],
      [CsrfTokens]) and a call table ([fn_apply]).
    - A callback-taking session operation completes exactly once, so
      [session.get(key, cb)] is a function returning what [cb] receives.
    - Every interaction with a collaborator is appended to a trace of
      [Event]s, in program order. *)

From Stdlib Require Import String Ascii ZArith List Bool Lia.
From stdpp Require Import base option list gmap strings pretty.

Local Open Scope Z_scope.
Local Open Scope string_scope.

(** ** JavaScript values *)

#[local] Set Warnings "-register-all".

Inductive JsValue : Type :=
| JsUndefined
| JsNull
| JsBool (b : bool)
| JsNumber (n : Z)            (* a finite number; only its being zero matters here *)
| JsNaN
| JsString (s : string)
| JsArray (elems : list JsValue)
| JsFunction (ref : nat)      (* a function object, identified by reference *)
| JsObject (ref : nat).       (* any other object, opaque *)

(** ToBoolean: [undefined], [null], [false], [0], [NaN] and [''] are falsy,
    everything else (every array, function and object) is truthy. *)
Definition truthy (v : JsValue) : bool :=
  match v with
  | JsUndefined | JsNull | JsNaN => false
  | JsBool b => b
  | JsNumber n => negb (n =? 0)%Z
  | JsString s => negb (String.eqb s "")
  | JsArray _ | JsFunction _ | JsObject _ => true
  end.

(** [a || b] *)
Definition js_or (a b : JsValue) : JsValue := if truthy a then a else b.

(** [typeof v] *)
Definition typeof (v : JsValue) : string :=
  match v with
  | JsUndefined => "undefined"
  | JsNull => "object"
  | JsBool _ => "boolean"
  | JsNumber _ | JsNaN => "number"
  | JsString _ => "string"
  | JsArray _ => "object"
  | JsFunction _ => "function"
  | JsObject _ => "object"
  end.

Definition is_function (v : JsValue) : bool := String.eqb (typeof v) "function".

(** ** Strings: [toLowerCase] and [indexOf] *)

(** HTTP method names are ASCII tokens; [toLowerCase] maps [A-Z] to [a-z]
    and leaves every other character alone. *)
Definition lower_ascii (c : ascii) : ascii :=
  let n := nat_of_ascii c in
  if ((65 <=? n)%nat && (n <=? 90)%nat)%bool then ascii_of_nat (n + 32) else c.

Fixpoint toLowerCase (s : string) : string :=
  match s with
  | EmptyString => EmptyString
  | String c s' => String (lower_ascii c) (toLowerCase s')
  end.

(** [x === s] for a string [s]: only a string with the same characters. *)
Definition strict_eq_string (x : JsValue) (s : string) : bool :=
  match x with
  | JsString t => String.eqb t s
  | _ => false
  end.

(** [Array.prototype.indexOf]: index of the first element [=== s], or -1. *)
Fixpoint array_indexOf_from (i : Z) (l : list JsValue) (s : string) : Z :=
  match l with
  | [] => -1
  | x :: l' => if strict_eq_string x s then i else array_indexOf_from (i + 1) l' s
  end.

Definition array_indexOf (l : list JsValue) (s : string) : Z :=
  array_indexOf_from 0 l s.

(** [String.prototype.indexOf]: index of the first occurrence of [s], or -1. *)
Definition string_indexOf (h s : string) : Z :=
  match String.index 0 s h with
  | Some i => Z.of_nat i
  | None => -1
  end.

(** [recv.indexOf(s)]. Arrays and strings have the method; on any other
    value of this embedding the property is not a function and the call
    raises a TypeError ([None]). *)
Definition js_indexOf (recv : JsValue) (s : string) : option Z :=
  match recv with
  | JsArray l => Some (array_indexOf l s)
  | JsString h => Some (string_indexOf h s)
  | _ => None
  end.

(** ** Construction: [module.exports = function(options)] *)

Module options.
(** The [options] object; a field that is not set reads [undefined]. *)
Record t : Type := mk {
  ignoredMethods : JsValue;
  cookieName : JsValue;
  headerName : JsValue;
  sessionKey : JsValue;
  ignore : JsValue;
  getToken : JsValue;
}.

(** [{}] *)
Definition empty : t :=
  mk JsUndefined JsUndefined JsUndefined JsUndefined JsUndefined JsUndefined.

(** The same object with one field set to [v]. *)
Definition with_ignore (o : t) (v : JsValue) : t :=
  mk (ignoredMethods o) (cookieName o) (headerName o) (sessionKey o) v (getToken o).

Definition with_getToken (o : t) (v : JsValue) : t :=
  mk (ignoredMethods o) (cookieName o) (headerName o) (sessionKey o) (ignore o) v.

Definition with_headerName (o : t) (v : JsValue) : t :=
  mk (ignoredMethods o) (cookieName o) v (sessionKey o) (ignore o) (getToken o).

Definition with_ignoredMethods (o : t) (v : JsValue) : t :=
  mk v (cookieName o) (headerName o) (sessionKey o) (ignore o) (getToken o).
End options.

(** The token getter of the closure: either [options.getToken] or the
    function [function(req) { return req.get(HEADER_NAME) }], which closes
    over the header name. *)
Inductive Getter : Type :=
| HeaderGetter (name : JsValue)
| UserGetter (fn : JsValue).

(** The variables the returned middleware closes over. *)
Record Config : Type := mkConfig {
  IGNORED_METHODS : JsValue;
  COOKIE_NAME : JsValue;
  HEADER_NAME : JsValue;
  SESSION_KEY : JsValue;
  ignore : JsValue;
  getToken : Getter;
}.

Definition default_ignored_methods : JsValue :=
  JsArray [JsString "get"; JsString "head"; JsString "options"].

(** [module.exports(options)], up to the [return function(req, res, next)].
    [None] is a call without an options object ([options || {}]). *)
Definition module_exports (opts : option options.t) : Config :=
  let options := default options.empty opts in
  let HEADER := js_or (options.headerName options) (JsString "X-XSRF-TOKEN") in
  {| IGNORED_METHODS := js_or (options.ignoredMethods options) default_ignored_methods;
     COOKIE_NAME := js_or (options.cookieName options) (JsString "XSRF-TOKEN");
     HEADER_NAME := HEADER;
     SESSION_KEY := js_or (options.sessionKey options) (JsString "XSRF-SECRET");
     ignore := if is_function (options.ignore options)
               then options.ignore options else JsNull;
     getToken := if is_function (options.getToken options)
                 then UserGetter (options.getToken options)
                 else HeaderGetter HEADER |}.

(** ** Collaborators *)

Module req.
(** The request: [req.method] and [req.get(name)], the header lookup. *)
Record t : Type := mk {
  method : string;
  get : JsValue → JsValue;
}.
End req.

(** The response: [res.locals], the cookies set by [res.cookie] in the order
    they were set, and the status sent by [res.sendStatus], if any. *)
Record Response : Type := mkResponse {
  locals : gmap string JsValue;
  cookies : list (JsValue * JsValue);
  statusSent : option Z;
}.

Module session.
(** [req.session]: [get(key, cb)] completes with [cb(err, value)] and
    [set(key, value, cb)] with [cb(err)]; both may change the store. *)
Class t (Sess : Type) : Type := {
  get : Sess → JsValue → JsValue * JsValue * Sess;
  set : Sess → JsValue → JsValue → JsValue * Sess;
}.
End session.

Module csrfTokens.
(** [csrf()]: [secretSync()] and [create(secret)] draw randomness from a
    generator state; [verify(secret, token)] is a boolean. *)
Class t (Rng : Type) : Type := {
  secretSync : Rng → JsValue * Rng;
  create : JsValue → Rng → JsValue * Rng;
  verify : JsValue → JsValue → bool;
}.
End csrfTokens.

(** What the middleware does to its collaborators, in program order. *)
Inductive Event : Type :=
| E_session_get (key : JsValue)
| E_session_set (key value : JsValue)
| E_secretSync
| E_create (secret : JsValue)
| E_locals (field : string) (value : JsValue)
| E_cookie (name value : JsValue)
| E_call (fn : JsValue)
| E_req_get (name : JsValue)
| E_verify (secret token : JsValue)
| E_next (arg : option JsValue)
| E_sendStatus (code : Z).

(** How one invocation of the middleware ends. *)
Inductive Outcome : Type :=
| Next (arg : option JsValue)    (* [next()] or [next(err)] *)
| Sent (code : Z)                (* [res.sendStatus(code)] *)
| TypeError.                     (* a call of something that is not a function *)

Section Guard.
Context {Sess Rng : Type} `{!session.t Sess} `{!csrfTokens.t Rng}.

(** The behaviour of the function objects: [fn_apply ref req res] is the
    value of calling function [ref] with [(req, res)]. User callbacks
    are taken to read, and not to change, the request and the response. *)
Variable fn_apply : nat → req.t → Response → JsValue.

Record World : Type := mkWorld {
  req_session : Sess;
  entropy : Rng;
  res : Response;
  trace : list Event;
}.

(** *** State passing *)

Definition M (A : Type) : Type := World → A * World.

Definition ret {A} (a : A) : M A := λ w, (a, w).

Definition bind {A B} (m : M A) (k : A → M B) : M B :=
  λ w, let (a, w') := m w in k a w'.

Notation "'let*' x := m 'in' k" := (bind m (λ x, k))
  (at level 10, x pattern, m at level 100, k at level 200, only parsing).

Definition emit (e : Event) : M unit :=
  λ w, (tt, mkWorld (req_session w) (entropy w) (res w) (trace w ++ [e])).

(** [session.get(key, function(err, secret) { ... })] *)
Definition session_get (key : JsValue) : M (JsValue * JsValue) :=
  λ w, let '(err, value, s') := session.get (req_session w) key in
       ((err, value),
        mkWorld s' (entropy w) (res w) (trace w ++ [E_session_get key])).

(** [session.set(key, value, function(err) { ... })] *)
Definition session_set (key value : JsValue) : M JsValue :=
  λ w, let '(err, s') := session.set (req_session w) key value in
       (err, mkWorld s' (entropy w) (res w) (trace w ++ [E_session_set key value])).

(** [csrfTokens.secretSync()] *)
Definition secretSync : M JsValue :=
  λ w, let '(secret, g') := csrfTokens.secretSync (entropy w) in
       (secret, mkWorld (req_session w) g' (res w) (trace w ++ [E_secretSync])).

(** [csrfTokens.create(secret)] *)
Definition create (secret : JsValue) : M JsValue :=
  λ w, let '(token, g') := csrfTokens.create secret (entropy w) in
       (token, mkWorld (req_session w) g' (res w) (trace w ++ [E_create secret])).

(** [csrfTokens.verify(secret, token)] *)
Definition verify (secret token : JsValue) : M bool :=
  let* _ := emit (E_verify secret token) in
  ret (csrfTokens.verify secret token).

(** [res.locals[field] = value] *)
Definition res_locals_set (field : string) (value : JsValue) : M unit :=
  λ w, let r := res w in
       (tt, mkWorld (req_session w) (entropy w)
              (mkResponse (<[field := value]> (locals r)) (cookies r) (statusSent r))
              (trace w ++ [E_locals field value])).

(** [res.cookie(name, value)] *)
Definition res_cookie (name value : JsValue) : M unit :=
  λ w, let r := res w in
       (tt, mkWorld (req_session w) (entropy w)
              (mkResponse (locals r) (cookies r ++ [(name, value)]) (statusSent r))
              (trace w ++ [E_cookie name value])).

(** [res.sendStatus(code)] *)
Definition res_sendStatus (code : Z) : M Outcome :=
  λ w, let r := res w in
       (Sent code, mkWorld (req_session w) (entropy w)
              (mkResponse (locals r) (cookies r) (Some code))
              (trace w ++ [E_sendStatus code])).

(** [next(arg)] *)
Definition next (arg : option JsValue) : M Outcome :=
  let* _ := emit (E_next arg) in ret (Next arg).

(** [f(req, res)]: [None] when [f] is not a function. *)
Definition js_call (f : JsValue) (rq : req.t) : M (option JsValue) :=
  match f with
  | JsFunction ref =>
      λ w, (Some (fn_apply ref rq (res w)),
            mkWorld (req_session w) (entropy w) (res w) (trace w ++ [E_call f]))
  | _ => ret None
  end.

(** [getToken(req, res)] *)
Definition call_getToken (g : Getter) (rq : req.t) : M (option JsValue) :=
  match g with
  | HeaderGetter name =>
      let* _ := emit (E_req_get name) in ret (Some (req.get rq name))
  | UserGetter fn => js_call fn rq
  end.

(** *** [obtainSecret(session, cb)]; the result is what [cb] receives. *)
Definition obtainSecret (cfg : Config) : M (JsValue * JsValue) :=
  let* (err, secret) := session_get (SESSION_KEY cfg) in
  if truthy err then ret (err, JsUndefined) else
  if truthy secret then ret (JsNull, secret) else
  let* secret := secretSync in
  let* err := session_set (SESSION_KEY cfg) secret in
  if truthy err then ret (err, JsUndefined) else
  ret (JsNull, secret).

(** *** The verification gate: the statements after [res.cookie(...)] *)
Definition gate (cfg : Config) (rq : req.t) (xsrfSecret : JsValue) : M Outcome :=
  match js_indexOf (IGNORED_METHODS cfg) (toLowerCase (req.method rq)) with
  | None => ret TypeError
  | Some i =>
      if i >? -1 then next None else
      (* [ignore && ignore(req, res)] *)
      let* ignored :=
        (if truthy (ignore cfg) then js_call (ignore cfg) rq
         else ret (Some (ignore cfg))) in
      match ignored with
      | None => ret TypeError
      | Some v =>
          if truthy v then next None else
          let* token := call_getToken (getToken cfg) rq in
          match token with
          | None => ret TypeError
          | Some t =>
              let* ok := verify xsrfSecret t in
              if ok then next None else res_sendStatus 412
          end
      end
  end.

(** *** Token issuance: the statements from [csrfTokens.create] to
    [res.cookie], as [middleware] below runs them. *)
Definition issue (cfg : Config) (xsrfSecret : JsValue) : M JsValue :=
  let* xsrfToken := create xsrfSecret in
  let* _ := res_locals_set "xsrfToken" xsrfToken in
  let* _ := res_cookie (COOKIE_NAME cfg) xsrfToken in
  ret xsrfToken.

(** *** The middleware [function(req, res, next)] *)
Definition middleware (cfg : Config) (rq : req.t) : M Outcome :=
  let* (err, xsrfSecret) := obtainSecret cfg in
  if truthy err then next (Some err) else
  let* xsrfToken := create xsrfSecret in
  let* _ := res_locals_set "xsrfToken" xsrfToken in
  let* _ := res_cookie (COOKIE_NAME cfg) xsrfToken in
  gate cfg rq xsrfSecret.

(** *** The conditions of the gate, as values *)

(** [IGNORED_METHODS.indexOf(req.method.toLowerCase()) > -1] *)
Definition method_ignored (cfg : Config) (rq : req.t) : option bool :=
  (λ i, i >? -1) <$> js_indexOf (IGNORED_METHODS cfg) (toLowerCase (req.method rq)).

(** [ignore && ignore(req, res)] *)
Definition ignore_result (cfg : Config) (rq : req.t) (r : Response) : option JsValue :=
  if truthy (ignore cfg) then
    match ignore cfg with
    | JsFunction ref => Some (fn_apply ref rq r)
    | _ => None
    end
  else Some (ignore cfg).

(** [getToken(req, res)] *)
Definition token_of (cfg : Config) (rq : req.t) (r : Response) : option JsValue :=
  match getToken cfg with
  | HeaderGetter name => Some (req.get rq name)
  | UserGetter (JsFunction ref) => Some (fn_apply ref rq r)
  | UserGetter _ => None
  end.

(** Neither bypass rule matches: the method is not ignored and the custom
    predicate, if any, gives a falsy value. *)
Definition requires_verification (cfg : Config) (rq : req.t) (r : Response) : bool :=
  match method_ignored cfg rq, ignore_result cfg rq r with
  | Some false, Some v => negb (truthy v)
  | _, _ => false
  end.

End Guard.

Arguments World : clear implicits.
Arguments M : clear implicits.

(** The pipeline hands every inbound request a response of its own. *)
Definition fresh_response : Response := mkResponse ∅ [] None.

Section Pipeline.
Context {Sess Rng : Type} `{!session.t Sess} `{!csrfTokens.t Rng}.
Variable fn_apply : nat → req.t → Response → JsValue.

Definition new_exchange : M Sess Rng unit :=
  λ w, (tt, mkWorld (req_session w) (entropy w) fresh_response (trace w)).

(** The requests of one session, served one after another. *)
Fixpoint serve (cfg : Config) (rqs : list req.t) : M Sess Rng (list Outcome) :=
  match rqs with
  | [] => ret []
  | rq :: rest =>
      bind new_exchange (λ _,
      bind (middleware fn_apply cfg rq) (λ o,
      bind (serve cfg rest) (λ os, ret (o :: os))))
  end.
End Pipeline.

(** Number of [session.set] calls in a trace. *)
Definition is_write (e : Event) : bool :=
  match e with E_session_set _ _ => true | _ => false end.

Definition writes (t : list Event) : nat := length (filter is_write t).

Arguments writes : simpl never.

(** ** Reference collaborators

    A session store and a token library small enough to run, used to
    exercise the middleware on concrete requests. *)

(** ToString, as a store uses it to address an entry by a string key. *)
Fixpoint js_toString (v : JsValue) : string :=
  match v with
  | JsUndefined => "undefined"
  | JsNull => "null"
  | JsBool true => "true"
  | JsBool false => "false"
  | JsNumber n => pretty n
  | JsNaN => "NaN"
  | JsString s => s
  | JsArray l =>
      String.concat ","
        ((fix elems (l : list JsValue) : list string :=
            match l with
            | [] => []
            | x :: l' =>
                match x with
                | JsUndefined | JsNull => ""
                | _ => js_toString x
                end :: elems l'
            end) l)
  | JsFunction _ => "function () { [native code] }"
  | JsObject _ => "[object Object]"
  end.

(** A key-value store with a script of faults: every operation consumes
    the head of [faults], and fails with it when it is truthy. A failed
    operation leaves the data alone. *)
Record MapSession : Type := mkMapSession {
  data : gmap string JsValue;
  faults : list JsValue;
}.

Definition ms_read (s : MapSession) (key : JsValue) : JsValue :=
  default JsUndefined (data s !! js_toString key).

Definition ms_get (s : MapSession) (key : JsValue) : JsValue * JsValue * MapSession :=
  match faults s with
  | [] => (JsNull, ms_read s key, s)
  | e :: fs =>
      if truthy e then (e, JsUndefined, mkMapSession (data s) fs)
      else (JsNull, ms_read s key, mkMapSession (data s) fs)
  end.

Definition ms_set (s : MapSession) (key value : JsValue) : JsValue * MapSession :=
  match faults s with
  | [] => (JsNull, mkMapSession (<[js_toString key := value]> (data s)) [])
  | e :: fs =>
      if truthy e then (e, mkMapSession (data s) fs)
      else (JsNull, mkMapSession (<[js_toString key := value]> (data s)) fs)
  end.

#[export] Instance MapSession_session : session.t MapSession :=
  {| session.get := ms_get; session.set := ms_set |}.

(** A salted token scheme in the shape of the csrf package: a token is
    [salt-secret], a secret must be a non-empty string, and [verify]
    rebuilds the token from the salt it finds before the first dash. *)
Fixpoint salt (n : nat) : string :=
  match n with
  | O => ""
  | S n' => String "s" (salt n')
  end.

Fixpoint salt_of (t : string) : option string :=
  match t with
  | EmptyString => None
  | String c t' =>
      if Ascii.eqb c "-" then Some "" else option_map (String c) (salt_of t')
  end.

Definition toy_tokenize (secret slt : string) : string := slt ++ "-" ++ secret.

Definition toy_secretSync (g : nat) : JsValue * nat :=
  (JsString ("secret" ++ salt g), S g).

Definition toy_create (secret : JsValue) (g : nat) : JsValue * nat :=
  match secret with
  | JsString x => if String.eqb x "" then (JsUndefined, g)
                  else (JsString (toy_tokenize x (salt g)), S g)
  | _ => (JsUndefined, g)
  end.

Definition toy_verify (secret token : JsValue) : bool :=
  match secret, token with
  | JsString x, JsString y =>
      negb (String.eqb x "") &&
      match salt_of y with
      | Some slt => String.eqb y (toy_tokenize x slt)
      | None => false
      end
  | _, _ => false
  end.

#[export] Instance toy_csrf : csrfTokens.t nat :=
  {| csrfTokens.secretSync := toy_secretSync;
     csrfTokens.create := toy_create;
     csrfTokens.verify := toy_verify |}.

Local Open Scope list_scope.

(** ** Vocabulary of the statements *)

(** *** Events *)

(** The events of the verification gate. *)
Definition is_gate_event (e : Event) : bool :=
  match e with
  | E_call _ | E_req_get _ | E_verify _ _ | E_next _ | E_sendStatus _ => true
  | _ => false
  end.

Definition is_next (e : Event) : bool :=
  match e with E_next _ => true | _ => false end.

(** The event of one [getToken(req, res)] call. *)
Definition getter_event (g : Getter) : Event :=
  match g with
  | HeaderGetter name => E_req_get name
  | UserGetter fn => E_call fn
  end.

(** The event of [ignore && ignore(req, res)]: a call when [ignore] is set. *)
Definition ignore_events (cfg : Config) : list Event :=
  if truthy (ignore cfg) then [E_call (ignore cfg)] else [].

(** The events of secret resolution. *)
Definition is_resolution_event (e : Event) : bool :=
  match e with
  | E_session_get _ | E_session_set _ _ | E_secretSync => true
  | _ => false
  end.

(** *** Worlds *)

Section Worlds.
Context {Sess Rng : Type} `{!session.t Sess} `{!csrfTokens.t Rng}.
Implicit Types (w : World Sess Rng) (cfg : Config).

(** [w] with the events [t] appended to its trace. *)
Definition log w (t : list Event) : World Sess Rng :=
  mkWorld (req_session w) (entropy w) (res w) (trace w ++ t).

(** [w] after [res.sendStatus(code)]. *)
Definition with_status w (code : Z) : World Sess Rng :=
  mkWorld (req_session w) (entropy w)
    (mkResponse (locals (res w)) (cookies (res w)) (Some code)) (trace w).

(** The world after issuance, and the token issued. *)
Definition issued cfg (s : JsValue) w : World Sess Rng := (issue cfg s w).2.

Definition issued_token (s : JsValue) w : JsValue :=
  (csrfTokens.create s (entropy w)).1.

End Worlds.

(** A run that started in [w] ended in a 412: the outcome is the status,
    the response carries it, and [next] was never called. *)
Definition rejected_with_412 {Sess Rng : Type}
    (w : World Sess Rng) (run : Outcome * World Sess Rng) : Prop :=
  run.1 = Sent 412
  ∧ statusSent (res run.2) = Some 412
  ∧ ∃ added, trace run.2 = trace w ++ added ∧ existsb is_next added = false.

(** *** Membership in the ignored methods *)

(** Some entry is strictly equal to the string [s]. *)
Definition has_entry (s : string) (l : list JsValue) : bool :=
  existsb (λ x, strict_eq_string x s) l.

(** Membership under case-insensitive comparison, as the specification
    words the method bypass: some entry is a string that equals [m] once
    both are lowercased. *)
Definition spec_case_insensitive_member (m : string) (l : list JsValue) : bool :=
  existsb (λ x, match x with
                | JsString e => String.eqb (toLowerCase e) (toLowerCase m)
                | _ => false
                end) l.

(** Every string entry is written in lowercase. *)
Definition lowercase_entries (l : list JsValue) : bool :=
  forallb (λ x, match x with
                | JsString e => String.eqb (toLowerCase e) e
                | _ => true
                end) l.

(** *** The session as a key-value store *)

(** What the middleware relies on from the session: it stores one value
    per key ([stored]); a read that completes without error yields the
    stored value and a read does not change it; after a write that
    completes without error the written value is the stored one. *)
Class LawfulSession (Sess : Type) `{!session.t Sess} : Type := {
  stored : Sess → JsValue → JsValue;
  get_stored : ∀ s k e v s',
    session.get s k = (e, v, s') → truthy e = false → v = stored s k;
  get_keeps : ∀ s k e v s',
    session.get s k = (e, v, s') → stored s' k = stored s k;
  set_stored : ∀ s k x e s',
    session.set s k x = (e, s') → truthy e = false → stored s' k = x;
}.

(** *** Concrete requests, sessions and configurations *)

(** Function objects of the runs below: 0 is an [ignore] that returns
    [true], 1 a [getToken] that reads the header [X-Alt-Token]. *)
Definition callbacks (ref : nat) (rq : req.t) (r : Response) : JsValue :=
  match ref with
  | 0%nat => JsBool true
  | 1%nat => req.get rq (JsString "X-Alt-Token")
  | _ => JsUndefined
  end.

(** A request with the given method and [X-XSRF-TOKEN] header. *)
Definition request (m : string) (token : JsValue) : req.t :=
  req.mk m (λ name, match name with
                    | JsString "X-XSRF-TOKEN" => token
                    | _ => JsUndefined
                    end).

Definition session_S : MapSession :=
  mkMapSession {[ "XSRF-SECRET" := JsString "S" ]} [].

(** The empty session, and the one left by the first resolution on it. *)
Definition session_empty : MapSession := mkMapSession ∅ [].

Definition session_secret : MapSession :=
  mkMapSession {[ "XSRF-SECRET" := JsString "secret" ]} [].

(** A session that holds the secret ['S'], and one that holds nothing. *)
Definition world_S : World MapSession nat := mkWorld session_S 3%nat fresh_response [].

Definition world_new : World MapSession nat :=
  mkWorld session_empty 0%nat fresh_response [].

(** Sessions whose read, or whose write, fails. *)
Definition world_read_fault : World MapSession nat :=
  mkWorld (mkMapSession ∅ [JsString "ECONNRESET"]) 0%nat fresh_response [].

Definition world_write_fault : World MapSession nat :=
  mkWorld (mkMapSession ∅ [JsNull; JsString "EIO"]) 0%nat fresh_response [].

(** The session of [world_write_fault] after its read. *)
Definition session_write_fault : MapSession := mkMapSession ∅ [JsString "EIO"].

Definition cfg_default : Config := module_exports None.

(** [{ ignoredMethods: ['GET'] }] *)
Definition cfg_upper : Config :=
  module_exports
    (Some (options.mk (JsArray [JsString "GET"]) JsUndefined JsUndefined JsUndefined
             JsUndefined JsUndefined)).

(** [{ ignore: function(req, res) { return true } }] *)
Definition cfg_ignore_all : Config :=
  module_exports (Some (options.with_ignore options.empty (JsFunction 0))).

(** [{ getToken: function(req, res) { return req.get('X-Alt-Token') } }] *)
Definition cfg_alt_getter : Config :=
  module_exports (Some (options.with_getToken options.empty (JsFunction 1))).

(** A [POST] that carries its token in the header [X-Alt-Token] only. *)
Definition alt_request (token : JsValue) : req.t :=
  req.mk "POST" (λ name, match name with
                         | JsString "X-Alt-Token" => token
                         | _ => JsUndefined
                         end).

(** The world after the resolution on [world_S]. *)
Definition world_S1 : World MapSession nat := (obtainSecret cfg_default world_S).2.

(** [{ ignoredMethods: 'get,head,options' }] and [{ ignoredMethods: true }] *)
Definition options_string_methods : options.t :=
  options.with_ignoredMethods options.empty (JsString "get,head,options").

Definition options_true_methods : options.t :=
  options.with_ignoredMethods options.empty (JsBool true).

(** The session after a second secret has been written over the first. *)
Definition session_secrets : MapSession :=
  mkMapSession {[ "XSRF-SECRET" := JsString "secrets" ]} [].

(** *** Counting and classifying events *)

(** Number of [session.get] calls in a trace. *)
Definition is_read (e : Event) : bool :=
  match e with E_session_get _ => true | _ => false end.

Definition reads (t : list Event) : nat := length (filter is_read t).

Arguments reads : simpl never.

(** The two ways in which the middleware hands the request on or ends it:
    [next(...)] and [res.sendStatus(...)]. *)
Definition is_continuation (e : Event) : bool :=
  match e with E_next _ | E_sendStatus _ => true | _ => false end.



(** Booleans, numbers and functions: values that have no [indexOf]. *)
Definition no_indexOf (v : JsValue) : bool :=
  match v with JsBool _ | JsNumber _ | JsFunction _ => true | _ => false end.

(** *** The callback of [session.get] and two requests in flight *)

Section Callback.
Context {Sess Rng : Type} `{!session.t Sess} `{!csrfTokens.t Rng}.

(** The function [function(err, secret) { ... }] that [obtainSecret] hands
    to [session.get]: what runs once the read has completed with [r]. *)
Definition on_get (cfg : Config) (r : JsValue * JsValue) : M Sess Rng (JsValue * JsValue) :=
  let (err, secret) := r in
  if truthy err then ret (err, JsUndefined) else
  if truthy secret then ret (JsNull, secret) else
  bind secretSync (λ secret,
  bind (session_set (SESSION_KEY cfg) secret) (λ err,
  if truthy err then ret (err, JsUndefined) else
  ret (JsNull, secret))).

(** Two requests A and B of one session whose reads are both under way
    before either callback runs: A reads, B reads, A's callback runs, B's
    callback runs. A write is taken together with its completion, so the
    store and the generator are used in the order A, B. The result is what
    the two callers of [obtainSecret] receive. *)
Definition two_in_flight (cfg : Config)
    : M Sess Rng ((JsValue * JsValue) * (JsValue * JsValue)) :=
  bind (session_get (SESSION_KEY cfg)) (λ ra,
  bind (session_get (SESSION_KEY cfg)) (λ rb,
  bind (on_get cfg ra) (λ a,
  bind (on_get cfg rb) (λ b,
  ret (a, b))))).
End Callback.

(** * Properties *)

(** ** Values *)


Lemma js_or_truthy (a b : JsValue) : truthy b = true → truthy (js_or a b) = true.
Proof. unfold js_or. by destruct (truthy a) eqn:Ha. Qed.

Lemma truthy_not_empty_string (v : JsValue) : truthy v = true → v ≠ JsString "".
Proof. by intros Hv ->. Qed.

(** ** Strings *)

Example toLowerCase_mixed : toLowerCase "GeT" = "get".
Proof. reflexivity. Qed.

Example toLowerCase_other_characters : toLowerCase "M-search_1" = "m-search_1".
Proof. reflexivity. Qed.

Example indexOf_array :
  js_indexOf default_ignored_methods "head" = Some 1%Z
  ∧ js_indexOf default_ignored_methods "post" = Some (-1)%Z
  ∧ js_indexOf default_ignored_methods "HEAD" = Some (-1)%Z.
Proof. by repeat split. Qed.

(** A string for [ignoredMethods] is searched for a substring; a value
    without [indexOf] makes the call fail. *)
Example indexOf_other_receivers :
  js_indexOf (JsString "get,head") "head" = Some 4%Z
  ∧ js_indexOf (JsString "get,head") "post" = Some (-1)%Z
  ∧ js_indexOf (JsNumber 1) "get" = None.
Proof. by repeat split. Qed.

(** ** Construction *)


Section Construction.
Variable o : options.t.

(** C9. At construction a falsy [cookieName], [headerName], [sessionKey]
    or [ignoredMethods] (the empty string, [undefined], ...) is replaced
    by its default and a truthy one is used as given; so no name is ever
    the empty string, while a non-empty string and any array, even [[]]
    or [['']], are kept. Without an options object every default applies. *)
Theorem C9_falsy_options_take_defaults :
  let cfg := module_exports (Some o) in
  ((truthy (options.cookieName o) = false → COOKIE_NAME cfg = JsString "XSRF-TOKEN")
   ∧ (truthy (options.headerName o) = false → HEADER_NAME cfg = JsString "X-XSRF-TOKEN")
   ∧ (truthy (options.sessionKey o) = false → SESSION_KEY cfg = JsString "XSRF-SECRET")
   ∧ (truthy (options.ignoredMethods o) = false →
      IGNORED_METHODS cfg = JsArray [JsString "get"; JsString "head"; JsString "options"]))
  ∧ ((truthy (options.cookieName o) = true → COOKIE_NAME cfg = options.cookieName o)
     ∧ (truthy (options.headerName o) = true → HEADER_NAME cfg = options.headerName o)
     ∧ (truthy (options.sessionKey o) = true → SESSION_KEY cfg = options.sessionKey o)
     ∧ (truthy (options.ignoredMethods o) = true →
        IGNORED_METHODS cfg = options.ignoredMethods o))
  ∧ (COOKIE_NAME cfg ≠ JsString "" ∧ HEADER_NAME cfg ≠ JsString ""
     ∧ SESSION_KEY cfg ≠ JsString "" ∧ IGNORED_METHODS cfg ≠ JsString "")
  ∧ (truthy (JsString "") = false ∧ truthy JsUndefined = false
     ∧ (∀ c s, truthy (JsString (String c s)) = true)
     ∧ (∀ l, truthy (JsArray l) = true))
  ∧ module_exports None = module_exports (Some options.empty)
  ∧ module_exports None =
      mkConfig (JsArray [JsString "get"; JsString "head"; JsString "options"])
               (JsString "XSRF-TOKEN") (JsString "X-XSRF-TOKEN")
               (JsString "XSRF-SECRET") JsNull
               (HeaderGetter (JsString "X-XSRF-TOKEN")).
Proof.
  cbn zeta. unfold module_exports; cbn [default IGNORED_METHODS COOKIE_NAME
    HEADER_NAME SESSION_KEY].
  repeat split;
    try (intros Hv; unfold js_or; cbn; rewrite Hv; reflexivity);
    try (apply truthy_not_empty_string, js_or_truthy; reflexivity).
Qed.

(** C10. A value of [options.ignore] or [options.getToken] that is not a
    function is dropped without complaint: the closure's [ignore] is
    [null], exactly as when no predicate is configured, and its
    [getToken] is the default getter, which reads the configured header
    from the request. *)
Theorem C10_non_function_callbacks_discarded (v : JsValue) :
  is_function v = false →
  ignore (module_exports (Some (options.with_ignore o v))) = JsNull
  ∧ module_exports (Some (options.with_ignore o v))
    = module_exports (Some (options.with_ignore o JsUndefined))
  ∧ getToken (module_exports (Some (options.with_getToken o v)))
    = HeaderGetter (HEADER_NAME (module_exports (Some o)))
  ∧ module_exports (Some (options.with_getToken o v))
    = module_exports (Some (options.with_getToken o JsUndefined))
  ∧ (∀ fn_apply rq r,
       ignore_result fn_apply (module_exports (Some (options.with_ignore o v))) rq r
       = Some JsNull)
  ∧ (∀ fn_apply rq r,
       token_of fn_apply (module_exports (Some (options.with_getToken o v))) rq r
       = Some (req.get rq (HEADER_NAME (module_exports (Some o)))))
  ∧ (∀ (Sess Rng : Type) fn_apply (rq : req.t) (w : World Sess Rng) name,
       call_getToken fn_apply (HeaderGetter name) rq w
       = (Some (req.get rq name),
          mkWorld (req_session w) (entropy w) (res w) (trace w ++ [E_req_get name]))).
Proof.
  intros Hv. unfold module_exports, ignore_result, token_of. cbn. rewrite Hv. done.
Qed.
End Construction.

(** ** Traces *)

Lemma writes_app (t u : list Event) : writes (t ++ u) = (writes t + writes u)%nat.
Proof. unfold writes. by rewrite filter_app, length_app. Qed.

(** Closes an equation between two runs up to the bracketing of traces. *)
Ltac trace_done := cbn; rewrite <- ?app_assoc, ?app_nil_r; cbn; done.

Section Steps.
Context {Sess Rng : Type} `{!session.t Sess} `{!csrfTokens.t Rng}.
Variable fn_apply : nat → req.t → Response → JsValue.
Implicit Types (w : World Sess Rng) (cfg : Config) (rq : req.t).

Lemma obtainSecret_unfold cfg w :
  obtainSecret cfg w =
  let k := SESSION_KEY cfg in
  let '(e, v, s1) := session.get (req_session w) k in
  let w1 := mkWorld s1 (entropy w) (res w) (trace w ++ [E_session_get k]) in
  if truthy e then ((e, JsUndefined), w1) else
  if truthy v then ((JsNull, v), w1) else
  let '(x, g1) := csrfTokens.secretSync (entropy w) in
  let '(e2, s2) := session.set s1 k x in
  let w2 := mkWorld s2 g1 (res w)
              (trace w ++ [E_session_get k; E_secretSync; E_session_set k x]) in
  if truthy e2 then ((e2, JsUndefined), w2) else ((JsNull, x), w2).
Proof.
  unfold obtainSecret, bind, session_get, secretSync, session_set, ret. cbn zeta.
  destruct (session.get _ _) as [[e v] s1].
  destruct (truthy e); [done|]. destruct (truthy v); [done|]. cbn.
  destruct (csrfTokens.secretSync _) as [x g1]. cbn.
  destruct (session.set _ _ _) as [e2 s2]. cbn.
  rewrite <- !app_assoc. cbn. by destruct (truthy e2).
Qed.

Lemma issue_unfold cfg (s : JsValue) w :
  issue cfg s w =
  let '(tok, g') := csrfTokens.create s (entropy w) in
  (tok, mkWorld (req_session w) g'
          (mkResponse (<["xsrfToken" := tok]> (locals (res w)))
                      (cookies (res w) ++ [(COOKIE_NAME cfg, tok)])
                      (statusSent (res w)))
          (trace w ++ [E_create s; E_locals "xsrfToken" tok;
                       E_cookie (COOKIE_NAME cfg) tok])).
Proof.
  unfold issue, bind, create, res_locals_set, res_cookie, ret.
  destruct (csrfTokens.create _ _) as [tok g']. cbn.
  by rewrite <- !app_assoc.
Qed.

Lemma middleware_unfold cfg rq w :
  middleware fn_apply cfg rq w =
  let '((e, s), w1) := obtainSecret cfg w in
  if truthy e then (Next (Some e), log w1 [E_next (Some e)]) else
  let '(_, w2) := issue cfg s w1 in
  gate fn_apply cfg rq s w2.
Proof.
  unfold middleware, issue, bind.
  destruct (obtainSecret cfg w) as [[e s] w1].
  destruct (truthy e); [done|].
  destruct (create s w1) as [tok wa].
  destruct (res_locals_set _ _ wa) as [[] wb].
  by destruct (res_cookie _ _ wb) as [[] wc].
Qed.

(** The gate, case by case, with the events it adds. *)
Lemma gate_unfold cfg rq (s : JsValue) w :
  gate fn_apply cfg rq s w =
  match method_ignored cfg rq with
  | None => (TypeError, w)
  | Some true => (Next None, log w [E_next None])
  | Some false =>
      match ignore_result fn_apply cfg rq (res w) with
      | None => (TypeError, w)
      | Some v =>
          if truthy v then (Next None, log w (ignore_events cfg ++ [E_next None])) else
          match token_of fn_apply cfg rq (res w) with
          | None => (TypeError, log w (ignore_events cfg))
          | Some t =>
              let evs := (ignore_events cfg ++ [getter_event (getToken cfg); E_verify s t])%list in
              if csrfTokens.verify s t
              then (Next None, log w (evs ++ [E_next None]))
              else (Sent 412, log (with_status w 412) (evs ++ [E_sendStatus 412]))
          end
      end
  end.
Proof.
  unfold gate, method_ignored, ignore_result, token_of, ignore_events,
    call_getToken, js_call, verify, next, res_sendStatus, emit, bind, ret,
    log, with_status.
  destruct (js_indexOf _ _) as [i|]; [cbn|done].
  destruct (i >? -1); [done|].
  destruct (truthy (ignore cfg)) eqn:Hig.
  - destruct (ignore cfg) as [| | | | | | |ref|] eqn:Hi; try done.
    destruct (truthy (fn_apply ref rq (res w))); [trace_done|].
    destruct (getToken cfg) as [name|[]]; try trace_done;
      cbn; destruct (csrfTokens.verify _ _); trace_done.
  - rewrite Hig.
    destruct (getToken cfg) as [name|[]]; try (destruct w; trace_done);
      cbn; destruct (csrfTokens.verify _ _); trace_done.
Qed.
End Steps.

(** ** Secret resolution *)

Section Resolution.
Context {Sess Rng : Type} `{!session.t Sess} `{!csrfTokens.t Rng}.
Implicit Types (w : World Sess Rng) (cfg : Config).

(** C5. [obtainSecret] reads the configured key. A read error is passed
    on as it is, without a write; a truthy value is passed on as it is,
    without a write; otherwise a secret is generated and written under
    the key, and the result is the error of the write, if any, or else
    the new secret. The last part counts the writes. *)
Theorem C5_obtainSecret_algorithm cfg w (e v : JsValue) (s1 : Sess) :
  session.get (req_session w) (SESSION_KEY cfg) = (e, v, s1) →
  let k := SESSION_KEY cfg in
  let w1 := mkWorld s1 (entropy w) (res w) (trace w ++ [E_session_get k]) in
  (truthy e = true → obtainSecret cfg w = ((e, JsUndefined), w1))
  ∧ (truthy e = false → truthy v = true → obtainSecret cfg w = ((JsNull, v), w1))
  ∧ (truthy e = false → truthy v = false →
     ∀ x g1 e2 s2,
       csrfTokens.secretSync (entropy w) = (x, g1) →
       session.set s1 k x = (e2, s2) →
       let w2 := mkWorld s2 g1 (res w)
                   (trace w ++ [E_session_get k; E_secretSync; E_session_set k x]) in
       (truthy e2 = true → obtainSecret cfg w = ((e2, JsUndefined), w2))
       ∧ (truthy e2 = false → obtainSecret cfg w = ((JsNull, x), w2)))
  ∧ writes (trace (obtainSecret cfg w).2)
    = (writes (trace w) + (if truthy e || truthy v then 0 else 1))%nat.
Proof.
  intros Hget k w1. subst k w1. rewrite obtainSecret_unfold. cbn zeta. rewrite Hget.
  split; [|split; [|split]].
  - by intros ->.
  - by intros -> ->.
  - intros -> -> x g1 e2 s2 -> ->. split; by intros ->.
  - destruct (truthy e); [cbn [snd trace]; by rewrite writes_app|].
    destruct (truthy v); [cbn [snd trace]; by rewrite writes_app|].
    destruct (csrfTokens.secretSync _) as [x g1].
    destruct (session.set _ _ _) as [e2 s2].
    destruct (truthy e2); cbn [snd trace]; by rewrite writes_app.
Qed.

(** Resolution adds resolution events only and leaves the response alone. *)
Lemma obtainSecret_effect cfg w :
  res (obtainSecret cfg w).2 = res w
  ∧ ∃ t, trace (obtainSecret cfg w).2 = trace w ++ t
         ∧ forallb is_resolution_event t = true.
Proof.
  rewrite obtainSecret_unfold. cbn zeta.
  destruct (session.get _ _) as [[e v] s1].
  destruct (truthy e); [split; [done|by eexists]|].
  destruct (truthy v); [split; [done|by eexists]|].
  destruct (csrfTokens.secretSync _) as [x g1].
  destruct (session.set _ _ _) as [e2 s2].
  destruct (truthy e2); (split; [done|by eexists]).
Qed.

(** A resolution without error yields a truthy secret, provided the
    generator only makes truthy secrets. *)
Lemma obtainSecret_truthy cfg w (e v : JsValue) w1 :
  (∀ g, truthy (csrfTokens.secretSync g).1 = true) →
  obtainSecret cfg w = ((e, v), w1) → truthy e = false → truthy v = true.
Proof.
  intros Hgen Hrun He. revert Hrun. rewrite obtainSecret_unfold. cbn zeta.
  destruct (session.get _ _) as [[e0 v0] s1].
  destruct (truthy e0) eqn:He0; [intros [= <- <- <-]; congruence|].
  destruct (truthy v0) eqn:Hv0; [intros [= <- <- <-]; congruence|].
  specialize (Hgen (entropy w)).
  destruct (csrfTokens.secretSync _) as [x g1].
  destruct (session.set _ _ _) as [e2 s2].
  destruct (truthy e2) eqn:He2; intros [= <- <- <-]; [congruence|done].
Qed.
End Resolution.

(** ** Issuance and the gate *)

Section Gate.
Context {Sess Rng : Type} `{!session.t Sess} `{!csrfTokens.t Rng}.
Variable fn_apply : nat → req.t → Response → JsValue.
Implicit Types (w : World Sess Rng) (cfg : Config) (rq : req.t).

Lemma issued_unfold cfg (s : JsValue) w :
  issued cfg s w =
  mkWorld (req_session w) (csrfTokens.create s (entropy w)).2
    (mkResponse (<["xsrfToken" := issued_token s w]> (locals (res w)))
                (cookies (res w) ++ [(COOKIE_NAME cfg, issued_token s w)])
                (statusSent (res w)))
    (trace w ++ [E_create s; E_locals "xsrfToken" (issued_token s w);
                 E_cookie (COOKIE_NAME cfg) (issued_token s w)]).
Proof.
  unfold issued, issued_token. rewrite issue_unfold.
  by destruct (csrfTokens.create _ _).
Qed.

Lemma gate_event_getter (g : Getter) : is_gate_event (getter_event g) = true.
Proof. by destruct g. Qed.

Lemma gate_events_ignore cfg : forallb is_gate_event (ignore_events cfg) = true.
Proof. unfold ignore_events. by destruct (truthy _). Qed.

(** The gate touches neither the session, the generator, [res.locals]
    nor the cookies, and adds gate events only. *)
Lemma gate_effect cfg rq (s : JsValue) w :
  let w' := (gate fn_apply cfg rq s w).2 in
  req_session w' = req_session w
  ∧ entropy w' = entropy w
  ∧ locals (res w') = locals (res w)
  ∧ cookies (res w') = cookies (res w)
  ∧ ∃ t, trace w' = trace w ++ t ∧ forallb is_gate_event t = true.
Proof.
  cbn zeta. rewrite gate_unfold.
  destruct (method_ignored cfg rq) as [[]|];
    [by repeat split; eexists| |by repeat split; exists []; rewrite app_nil_r].
  destruct (ignore_result _ _ _ _) as [v|];
    [|by repeat split; exists []; rewrite app_nil_r].
  destruct (truthy v).
  { repeat split. eexists; split; [done|].
    by rewrite forallb_app, gate_events_ignore. }
  destruct (token_of _ _ _ _) as [t|].
  { cbn zeta. destruct (csrfTokens.verify s t); repeat split;
      (eexists; split; [done|]);
      by rewrite !forallb_app, gate_events_ignore; cbn; rewrite gate_event_getter. }
  repeat split. eexists; split; [done|]. apply gate_events_ignore.
Qed.
End Gate.

(** ** Membership in the ignored methods *)

Lemma array_indexOf_from_found (i : Z) (l : list JsValue) (s : string) :
  (0 ≤ i)%Z → (array_indexOf_from i l s >? -1)%Z = has_entry s l.
Proof.
  revert i. induction l as [|x l IH]; intros i Hi; [done|].
  cbn. destruct (strict_eq_string x s); cbn.
  - destruct (Z.gtb_spec i (-1)); [done|lia].
  - apply IH. lia.
Qed.

Lemma method_ignored_array (cfg : Config) (rq : req.t) (l : list JsValue) :
  IGNORED_METHODS cfg = JsArray l →
  method_ignored cfg rq = Some (has_entry (toLowerCase (req.method rq)) l).
Proof.
  intros Hl. unfold method_ignored. rewrite Hl. cbn.
  unfold array_indexOf. by rewrite array_indexOf_from_found.
Qed.

Lemma lowercase_entries_member (m : string) (l : list JsValue) :
  lowercase_entries l = true →
  spec_case_insensitive_member m l = has_entry (toLowerCase m) l.
Proof.
  unfold lowercase_entries, spec_case_insensitive_member, has_entry.
  induction l as [|x l IH]; [done|]. cbn.
  intros [Hx Hl]%andb_true_iff. rewrite (IH Hl). f_equal.
  destruct x; try done. cbn. apply String.eqb_eq in Hx. by rewrite Hx.
Qed.

(** ** Rejection *)

Lemma none_of_them (P Q : Event → bool) (l : list Event) :
  (∀ x, P x = true → Q x = false) → forallb P l = true → existsb Q l = false.
Proof.
  intros HPQ. induction l as [|x l IH]; [done|]. cbn.
  intros [Hx Hl]%andb_true_iff. by rewrite (HPQ x Hx), (IH Hl).
Qed.

(** ** One request *)

Section Request.
Context {Sess Rng : Type} `{!session.t Sess} `{!csrfTokens.t Rng}.
Variable fn_apply : nat → req.t → Response → JsValue.
Variables (cfg : Config) (rq : req.t).

(** Secret resolution succeeds from [w], with secret [s], in [w1]. *)
Variables (w w1 : World Sess Rng) (e s : JsValue).
Hypothesis Hresolve : obtainSecret cfg w = ((e, s), w1).
Hypothesis Hok : truthy e = false.

Lemma middleware_resolved :
  middleware fn_apply cfg rq w = gate fn_apply cfg rq s (issued cfg s w1).
Proof.
  rewrite middleware_unfold, Hresolve, Hok. unfold issued.
  by destruct (issue cfg s w1).
Qed.

(** C4. When secret resolution succeeds, a token freshly created from the
    resolved secret is assigned to [res.locals.xsrfToken] and then set as
    the cookie [COOKIE_NAME], and only then does the gate run: whatever
    the method, the ignore predicate and the outcome, the events after
    resolution are creation, the assignment, the cookie, and then gate
    events only, and the response ends up with the token on both. *)
Theorem C4_token_published_before_decision :
  let tok := issued_token s w1 in
  let w3 := (middleware fn_apply cfg rq w).2 in
  middleware fn_apply cfg rq w = gate fn_apply cfg rq s (issued cfg s w1)
  ∧ trace (issued cfg s w1)
    = trace w1 ++ [E_create s; E_locals "xsrfToken" tok; E_cookie (COOKIE_NAME cfg) tok]
  ∧ (∃ t, trace w3
          = trace w1 ++ [E_create s; E_locals "xsrfToken" tok;
                         E_cookie (COOKIE_NAME cfg) tok] ++ t
          ∧ forallb is_gate_event t = true)
  ∧ locals (res w3) !! "xsrfToken" = Some tok
  ∧ cookies (res w3) = cookies (res w) ++ [(COOKIE_NAME cfg, tok)].
Proof.
  cbn zeta. rewrite middleware_resolved.
  destruct (gate_effect fn_apply cfg rq s (issued cfg s w1))
    as (_ & _ & Hloc & Hck & t & Ht & Hev).
  cbn zeta in *. rewrite Hloc, Hck, Ht. rewrite issued_unfold. cbn.
  pose proof (obtainSecret_effect cfg w) as [Hres _].
  rewrite Hresolve in Hres. cbn in Hres. rewrite Hres.
  split; [done|]. split; [done|]. split.
  - exists t. by rewrite <- app_assoc.
  - split; [apply lookup_insert_eq|done].
Qed.

(** C3. The rules are tried in order. An ignored method calls [next()]
    at once: no predicate call, no extraction, no verification. Otherwise
    a truthy result of the predicate calls [next()] after that one call:
    no extraction, no verification. Otherwise the token is extracted and
    verified, and the outcome is [next()] or status 412. *)
Theorem C3_rules_in_strict_order :
  let w2 := issued cfg s w1 in
  (method_ignored cfg rq = Some true →
     middleware fn_apply cfg rq w = (Next None, log w2 [E_next None]))
  ∧ (method_ignored cfg rq = Some false →
     ∀ v, ignore_result fn_apply cfg rq (res w2) = Some v → truthy v = true →
       middleware fn_apply cfg rq w
       = (Next None, log w2 [E_call (ignore cfg); E_next None]))
  ∧ (method_ignored cfg rq = Some false →
     ∀ v, ignore_result fn_apply cfg rq (res w2) = Some v → truthy v = false →
     ∀ t, token_of fn_apply cfg rq (res w2) = Some t →
       middleware fn_apply cfg rq w
       = if csrfTokens.verify s t
         then (Next None,
               log w2 (ignore_events cfg
                       ++ [getter_event (getToken cfg); E_verify s t; E_next None]))
         else (Sent 412,
               log (with_status w2 412)
                 (ignore_events cfg
                  ++ [getter_event (getToken cfg); E_verify s t; E_sendStatus 412]))).
Proof.
  cbn zeta. rewrite middleware_resolved, gate_unfold.
  split; [by intros ->|]. split.
  - intros -> v Hv Htr. rewrite Hv, Htr.
    unfold ignore_result, ignore_events in *.
    destruct (truthy (ignore cfg)) eqn:Hig; [done|]. congruence.
  - intros -> v -> -> t ->. cbn zeta.
    destruct (csrfTokens.verify s t); by rewrite <- app_assoc.
Qed.
Lemma requires_verification_inv (r : Response) :
  requires_verification fn_apply cfg rq r = true →
  method_ignored cfg rq = Some false
  ∧ ∃ v, ignore_result fn_apply cfg rq r = Some v ∧ truthy v = false.
Proof.
  unfold requires_verification.
  destruct (method_ignored cfg rq) as [[]|]; try done.
  destruct (ignore_result _ _ _ _) as [v|]; [|done].
  intros Hv%negb_true_iff. eauto.
Qed.

(** A required verification: the run is decided by [verify] alone. *)
Lemma middleware_verifies (t : JsValue) :
  requires_verification fn_apply cfg rq (res (issued cfg s w1)) = true →
  token_of fn_apply cfg rq (res (issued cfg s w1)) = Some t →
  middleware fn_apply cfg rq w
  = if csrfTokens.verify s t
    then (Next None,
          log (issued cfg s w1)
            (ignore_events cfg ++ [getter_event (getToken cfg); E_verify s t; E_next None]))
    else (Sent 412,
          log (with_status (issued cfg s w1) 412)
            (ignore_events cfg
             ++ [getter_event (getToken cfg); E_verify s t; E_sendStatus 412])).
Proof.
  intros (Hm & v & Hv & Hf)%requires_verification_inv Ht.
  rewrite middleware_resolved, gate_unfold, Hm, Hv, Hf, Ht. cbn zeta.
  destruct (csrfTokens.verify s t); by rewrite <- app_assoc.
Qed.

Lemma middleware_rejects (t : JsValue) :
  requires_verification fn_apply cfg rq (res (issued cfg s w1)) = true →
  token_of fn_apply cfg rq (res (issued cfg s w1)) = Some t →
  csrfTokens.verify s t = false →
  rejected_with_412 w (middleware fn_apply cfg rq w).
Proof.
  intros Hreq Ht Hv. rewrite (middleware_verifies t Hreq Ht), Hv.
  split; [done|]. split; [done|]. cbn.
  destruct (obtainSecret_effect cfg w) as (_ & t0 & Ht0 & Hev).
  rewrite Hresolve in Ht0. cbn in Ht0.
  rewrite issued_unfold. cbn. rewrite Ht0.
  eexists. split; [by rewrite <- !app_assoc|].
  rewrite existsb_app. rewrite (none_of_them is_resolution_event is_next t0); [|by intros []|done].
  unfold ignore_events. by destruct (truthy (ignore cfg)), (getToken cfg).
Qed.

(** C6. On a request that is not bypassed, a failed verification ends the
    response with status 412 and [next] is not called; an empty or
    missing token takes the very same path, being rejected by [verify]. *)
Theorem C6_failed_verification_is_412 (t : JsValue) :
  requires_verification fn_apply cfg rq (res (issued cfg s w1)) = true →
  token_of fn_apply cfg rq (res (issued cfg s w1)) = Some t →
  (csrfTokens.verify s t = false →
     rejected_with_412 w (middleware fn_apply cfg rq w))
  ∧ ((∀ t', truthy t' = false → csrfTokens.verify s t' = false) →
     truthy t = false →
     rejected_with_412 w (middleware fn_apply cfg rq w))
  ∧ (csrfTokens.verify s t = false →
     middleware fn_apply cfg rq w
     = (Sent 412,
        log (with_status (issued cfg s w1) 412)
          (ignore_events cfg
           ++ [getter_event (getToken cfg); E_verify s t; E_sendStatus 412]))).
Proof.
  intros Hreq Ht. split; [|split].
  - by apply middleware_rejects.
  - intros Hempty Hfalsy. apply (middleware_rejects t); auto.
  - intros Hv. by rewrite (middleware_verifies t Hreq Ht), Hv.
Qed.

(** C1. On a request that requires verification, [next()] is called
    exactly when [verify] accepts the extracted token against the secret
    of the session, and otherwise the response ends with status 412. So,
    for a token library whose [verify] accepts the tokens created from
    the secret, rejects falsy tokens and rejects the tokens created from
    any other secret: a token created from the secret passes, an absent
    token and a token of another secret get 412. *)
Theorem C1_continuation_iff_verified (t : JsValue) :
  requires_verification fn_apply cfg rq (res (issued cfg s w1)) = true →
  token_of fn_apply cfg rq (res (issued cfg s w1)) = Some t →
  let run := middleware fn_apply cfg rq w in
  run.1 = (if csrfTokens.verify s t then Next None else Sent 412)
  ∧ statusSent (res run.2)
    = (if csrfTokens.verify s t then statusSent (res w) else Some 412)
  ∧ ((∀ g, csrfTokens.verify s (csrfTokens.create s g).1 = true) →
     ∀ g, t = (csrfTokens.create s g).1 → run.1 = Next None)
  ∧ ((∀ t', truthy t' = false → csrfTokens.verify s t' = false) →
     truthy t = false → run.1 = Sent 412)
  ∧ ((∀ s' g, s' ≠ s → csrfTokens.verify s (csrfTokens.create s' g).1 = false) →
     ∀ s' g, s' ≠ s → t = (csrfTokens.create s' g).1 → run.1 = Sent 412).
Proof.
  intros Hreq Ht. cbn zeta. rewrite (middleware_verifies t Hreq Ht).
  pose proof (obtainSecret_effect cfg w) as [Hres _].
  rewrite Hresolve in Hres. cbn in Hres.
  split; [by destruct (csrfTokens.verify s t)|]. split.
  { destruct (csrfTokens.verify s t); [|done].
    rewrite issued_unfold. cbn. by rewrite Hres. }
  split; [|split].
  - intros Hcreate g ->. by rewrite Hcreate.
  - intros Hempty Hfalsy. by rewrite Hempty.
  - intros Hother s' g Hne ->. by rewrite Hother.
Qed.

(** C2, as the code has it. The lowercased method of the request is
    looked up among the configured entries as they are written: the
    method is ignored exactly when some entry is strictly equal to it,
    and then [next()] is called at once, without verification. When the
    entries are written in lowercase, this is membership under
    case-insensitive comparison. *)
Theorem C2_lowercased_method_bypass (l : list JsValue) :
  IGNORED_METHODS cfg = JsArray l →
  method_ignored cfg rq = Some (has_entry (toLowerCase (req.method rq)) l)
  ∧ (has_entry (toLowerCase (req.method rq)) l = true →
     middleware fn_apply cfg rq w = (Next None, log (issued cfg s w1) [E_next None]))
  ∧ (lowercase_entries l = true →
     spec_case_insensitive_member (req.method rq) l = true →
     middleware fn_apply cfg rq w = (Next None, log (issued cfg s w1) [E_next None])).
Proof.
  intros Hl. pose proof (method_ignored_array cfg rq l Hl) as Hm.
  split; [done|].
  assert (has_entry (toLowerCase (req.method rq)) l = true →
          middleware fn_apply cfg rq w
          = (Next None, log (issued cfg s w1) [E_next None])) as Hbypass.
  { intros Hin. by rewrite middleware_resolved, gate_unfold, Hm, Hin. }
  split; [done|].
  intros Hlow Hmem. apply Hbypass. by rewrite <- lowercase_entries_member.
Qed.
End Request.

(** ** Requests of one session *)

Lemma writes_gate_events (t : list Event) :
  forallb is_gate_event t = true → writes t = 0%nat.
Proof.
  induction t as [|x t IH]; [done|]. cbn.
  intros [Hx Ht]%andb_true_iff. specialize (IH Ht).
  unfold writes in *. cbn. by destruct x.
Qed.

Section Session.
Context {Sess Rng : Type} `{!session.t Sess} `{!csrfTokens.t Rng}.
Context `{!LawfulSession Sess}.
Variable fn_apply : nat → req.t → Response → JsValue.
Variable cfg : Config.
Implicit Types (w : World Sess Rng) (rq : req.t).

(** After resolution, the middleware neither touches the session nor
    writes to it. *)
Lemma middleware_session rq w :
  req_session (middleware fn_apply cfg rq w).2 = req_session (obtainSecret cfg w).2
  ∧ writes (trace (middleware fn_apply cfg rq w).2)
    = writes (trace (obtainSecret cfg w).2).
Proof.
  rewrite middleware_unfold.
  destruct (obtainSecret cfg w) as [[e s] w1]. cbn [snd].
  destruct (truthy e).
  { cbn. by rewrite writes_app, Nat.add_0_r. }
  pose proof (issued_unfold cfg s w1) as Hi. unfold issued in Hi.
  destruct (issue cfg s w1) as [tok w2]. cbn [snd] in Hi.
  destruct (gate_effect fn_apply cfg rq s w2) as (Hs & _ & _ & _ & t & Ht & Hev).
  cbn zeta in *. rewrite Hs, Ht, writes_app, (writes_gate_events t Hev).
  subst w2. cbn. by rewrite writes_app, !Nat.add_0_r.
Qed.

(** Resolution on a session that holds a truthy secret. *)
Lemma obtainSecret_holding w (v : JsValue) :
  stored (req_session w) (SESSION_KEY cfg) = v → truthy v = true →
  writes (trace (obtainSecret cfg w).2) = writes (trace w)
  ∧ stored (req_session (obtainSecret cfg w).2) (SESSION_KEY cfg) = v
  ∧ (truthy (obtainSecret cfg w).1.1 = false → (obtainSecret cfg w).1.2 = v).
Proof.
  intros Hst Hv. rewrite obtainSecret_unfold. cbn zeta.
  destruct (session.get _ _) as [[e v0] s1] eqn:Hget.
  pose proof (get_keeps _ _ _ _ _ Hget) as Hkeep.
  destruct (truthy e) eqn:He.
  { cbn. rewrite writes_app, Nat.add_0_r, Hkeep.
    split; [done|]. split; [done|]. intros ?; congruence. }
  pose proof (get_stored _ _ _ _ _ Hget He) as ->. rewrite Hst, Hv. cbn.
  by rewrite writes_app, Nat.add_0_r, Hkeep.
Qed.

(** A resolution without error leaves its result stored. *)
Lemma obtainSecret_stores w (e v : JsValue) w1 :
  obtainSecret cfg w = ((e, v), w1) → truthy e = false →
  stored (req_session w1) (SESSION_KEY cfg) = v.
Proof.
  rewrite obtainSecret_unfold. cbn zeta.
  destruct (session.get _ _) as [[e0 v0] s1] eqn:Hget.
  destruct (truthy e0) eqn:He0; [intros [= <- <- <-]; congruence|].
  destruct (truthy v0) eqn:Hv0.
  { intros [= <- <- <-] _. cbn.
    rewrite (get_keeps _ _ _ _ _ Hget). symmetry. by eapply get_stored. }
  destruct (csrfTokens.secretSync _) as [x g1].
  destruct (session.set _ _ _) as [e2 s2] eqn:Hset.
  destruct (truthy e2) eqn:He2; intros [= <- <- <-]; [congruence|].
  intros _. cbn. by eapply set_stored.
Qed.

(** One request of the pipeline: a fresh response, then the middleware. *)
Lemma serve_cons rq (rqs : list req.t) w :
  (serve fn_apply cfg (rq :: rqs) w).2
  = (serve fn_apply cfg rqs (middleware fn_apply cfg rq (new_exchange w).2).2).2.
Proof.
  cbn. unfold bind.
  destruct (middleware _ _ _ _) as [o wa]. cbn.
  by destruct (serve _ _ _ wa).
Qed.

Lemma serve_holding (rqs : list req.t) w (v : JsValue) :
  stored (req_session w) (SESSION_KEY cfg) = v → truthy v = true →
  writes (trace (serve fn_apply cfg rqs w).2) = writes (trace w)
  ∧ stored (req_session (serve fn_apply cfg rqs w).2) (SESSION_KEY cfg) = v.
Proof.
  revert w. induction rqs as [|rq rqs IH]; intros w Hst Hv; [done|].
  rewrite serve_cons.
  destruct (middleware_session rq (new_exchange w).2) as [Hs Hw].
  destruct (obtainSecret_holding (new_exchange w).2 v Hst Hv) as (Hw' & Hst' & _).
  destruct (IH (middleware fn_apply cfg rq (new_exchange w).2).2) as [IHw IHs];
    [by rewrite Hs|done|].
  rewrite IHw, IHs, Hw, Hw'. done.
Qed.
(** Resolution on a session without a secret: one write, and the
    generated secret is stored when the write completes without error. *)
Lemma obtainSecret_lacking w (e v : JsValue) (s1 : Sess) :
  session.get (req_session w) (SESSION_KEY cfg) = (e, v, s1) →
  truthy e = false → truthy v = false →
  writes (trace (obtainSecret cfg w).2) = (writes (trace w) + 1)%nat
  ∧ ∀ x g e2 s2,
      csrfTokens.secretSync (entropy w) = (x, g) →
      session.set s1 (SESSION_KEY cfg) x = (e2, s2) → truthy e2 = false →
      stored (req_session (obtainSecret cfg w).2) (SESSION_KEY cfg) = x.
Proof.
  intros Hget He Hv. rewrite obtainSecret_unfold. cbn zeta. rewrite Hget, He, Hv.
  destruct (csrfTokens.secretSync _) as [x g1].
  destruct (session.set _ _ _) as [e2 s2] eqn:Hset.
  split.
  - destruct (truthy e2); cbn; by rewrite writes_app.
  - intros x' g' e2' s2' [= <- <-] Hset' He2.
    rewrite Hset in Hset'. injection Hset' as <- <-. rewrite He2. cbn.
    by eapply set_stored.
Qed.

(** C7. The middleware never overwrites a secret. On a session that holds
    a truthy secret under the configured key, the requests served, however
    many, make no session write, the secret stays the stored one, and a
    later resolution without error returns it. On a session whose read
    yields no secret, the first request makes exactly one write; when that
    write completes without error the secret it wrote is the stored one,
    and that request together with all later ones makes one write. The
    store holds one value per key, so one secret at most, at any time. *)
Theorem C7_secret_written_once_never_overwritten :
  (∀ w (v : JsValue),
     stored (req_session w) (SESSION_KEY cfg) = v → truthy v = true →
     ∀ rqs : list req.t,
       writes (trace (serve fn_apply cfg rqs w).2) = writes (trace w)
       ∧ stored (req_session (serve fn_apply cfg rqs w).2) (SESSION_KEY cfg) = v
       ∧ ∀ (e2 v2 : JsValue) w2,
           obtainSecret cfg (serve fn_apply cfg rqs w).2 = ((e2, v2), w2) →
           truthy e2 = false →
           v2 = v ∧ writes (trace w2) = writes (trace w))
  ∧ (∀ w (e v : JsValue) (s1 : Sess),
       session.get (req_session w) (SESSION_KEY cfg) = (e, v, s1) →
       truthy e = false → truthy v = false →
       ∀ rq,
         writes (trace (serve fn_apply cfg [rq] w).2) = (writes (trace w) + 1)%nat
         ∧ ∀ x g e2 s2,
             csrfTokens.secretSync (entropy w) = (x, g) →
             session.set s1 (SESSION_KEY cfg) x = (e2, s2) →
             truthy e2 = false → truthy x = true →
             ∀ rqs : list req.t,
               writes (trace (serve fn_apply cfg (rq :: rqs) w).2)
               = (writes (trace w) + 1)%nat
               ∧ stored (req_session (serve fn_apply cfg (rq :: rqs) w).2)
                   (SESSION_KEY cfg) = x).
Proof.
  split.
  - intros w v Hst Hv rqs.
    destruct (serve_holding rqs w v Hst Hv) as [Hw Hs].
    split; [done|]. split; [done|]. intros e2 v2 w2 Hrun He2.
    destruct (obtainSecret_holding _ v Hs Hv) as (Hw2 & _ & Hval).
    rewrite Hrun in Hw2, Hval. cbn in Hw2, Hval.
    split; [by apply Hval|by rewrite Hw2].
  - intros w e v s1 Hget He Hv rq.
    destruct (middleware_session rq (new_exchange w).2) as [Hs Hw].
    destruct (obtainSecret_lacking (new_exchange w).2 e v s1 Hget He Hv)
      as [Hone Hstored].
    split.
    + rewrite serve_cons. cbn [serve ret snd]. by rewrite Hw, Hone.
    + intros x g e2 s2 Hgen Hset He2 Hx rqs. rewrite serve_cons.
      destruct (serve_holding rqs (middleware fn_apply cfg rq (new_exchange w).2).2 x)
        as [Hw' Hs']; [|done|].
      { rewrite Hs. by eapply Hstored. }
      by rewrite Hw', Hs', Hw, Hone.
Qed.

(** C8. Secret resolution is idempotent: when two resolutions in a row
    both complete without error, the second returns the very secret the
    first returned, which it finds stored, and writes nothing. The token
    library is taken to generate truthy secrets only. *)
Theorem C8_resolution_idempotent w (e1 v1 e2 v2 : JsValue) w1 w2 :
  (∀ g, truthy (csrfTokens.secretSync g).1 = true) →
  obtainSecret cfg w = ((e1, v1), w1) → truthy e1 = false →
  obtainSecret cfg w1 = ((e2, v2), w2) → truthy e2 = false →
  v2 = v1 ∧ writes (trace w2) = writes (trace w1).
Proof.
  intros Hgen Hfirst He1 Hsecond He2.
  pose proof (obtainSecret_truthy cfg w e1 v1 w1 Hgen Hfirst He1) as Hv1.
  pose proof (obtainSecret_stores w e1 v1 w1 Hfirst He1) as Hst.
  destruct (obtainSecret_holding w1 v1 Hst Hv1) as (Hw & _ & Hval).
  rewrite Hsecond in Hw, Hval. cbn in Hw, Hval. auto.
Qed.
End Session.

(** ** The reference collaborators *)

Lemma ms_get_stored (s : MapSession) (k e v : JsValue) (s' : MapSession) :
  ms_get s k = (e, v, s') → truthy e = false → v = ms_read s k.
Proof.
  unfold ms_get. destruct (faults s) as [|e0 fs]; [by intros [= <- <- <-]|].
  destruct (truthy e0) eqn:He0; intros [= <- <- <-]; [congruence|done].
Qed.

Lemma ms_get_keeps (s : MapSession) (k e v : JsValue) (s' : MapSession) :
  ms_get s k = (e, v, s') → ms_read s' k = ms_read s k.
Proof.
  unfold ms_get. destruct (faults s) as [|e0 fs]; [by intros [= <- <- <-]|].
  by destruct (truthy e0); intros [= <- <- <-].
Qed.

Lemma ms_set_stored (s : MapSession) (k x e : JsValue) (s' : MapSession) :
  ms_set s k x = (e, s') → truthy e = false → ms_read s' k = x.
Proof.
  unfold ms_set, ms_read.
  destruct (faults s) as [|e0 fs].
  - intros [= <- <-] _. cbn. by rewrite lookup_insert_eq.
  - destruct (truthy e0) eqn:He0; intros [= <- <-]; [congruence|].
    intros _. cbn. by rewrite lookup_insert_eq.
Qed.

#[export] Instance MapSession_lawful : LawfulSession MapSession :=
  {| stored := ms_read;
     get_stored := ms_get_stored;
     get_keeps := ms_get_keeps;
     set_stored := ms_set_stored |}.

Lemma append_String (c : ascii) (a b : string) :
  String.append (String c a) b = String c (String.append a b).
Proof. reflexivity. Qed.

Lemma append_empty (b : string) : String.append "" b = b.
Proof. reflexivity. Qed.

Lemma salt_of_tokenize (x : string) (g : nat) :
  salt_of (toy_tokenize x (salt g)) = Some (salt g).
Proof.
  unfold toy_tokenize. induction g as [|g IH].
  - by rewrite append_empty, append_String.
  - cbn [salt]. rewrite append_String. cbn [salt_of]. by rewrite IH.
Qed.

Lemma toy_tokenize_inj (x y slt : string) :
  toy_tokenize x slt = toy_tokenize y slt → x = y.
Proof.
  unfold toy_tokenize. induction slt as [|c slt IH].
  - rewrite !append_empty, !append_String, !append_empty. by intros [= ->].
  - rewrite !append_String. intros [= Heq]. by apply IH.
Qed.

(** [verify] accepts every token created from a non-empty string secret. *)
Lemma toy_verify_create (x : string) (g : nat) :
  x ≠ "" → toy_verify (JsString x) (toy_create (JsString x) g).1 = true.
Proof.
  intros Hx%String.eqb_neq. unfold toy_create, toy_verify. rewrite Hx.
  cbn [fst]. by rewrite salt_of_tokenize, String.eqb_refl.
Qed.

(** [verify] rejects every falsy token. *)
Lemma toy_verify_falsy (s t : JsValue) : truthy t = false → toy_verify s t = false.
Proof.
  destruct s, t; try done. cbn [truthy toy_verify].
  intros Ht%negb_false_iff%String.eqb_eq. subst. apply andb_false_r.
Qed.

(** [verify] rejects every token created from another secret. *)
Lemma toy_verify_other (x : string) (s' : JsValue) (g : nat) :
  s' ≠ JsString x → toy_verify (JsString x) (toy_create s' g).1 = false.
Proof.
  intros Hne. unfold toy_create, toy_verify.
  destruct s' as [| | | | |y| | |]; try done.
  destruct (String.eqb y "") eqn:Hy; [done|].
  cbn [fst]. rewrite salt_of_tokenize.
  destruct (String.eqb x ""); [done|]. cbn [negb andb].
  apply String.eqb_neq. intros Heq%toy_tokenize_inj. congruence.
Qed.

(** ** Concrete runs *)

(** The scenarios of the specification, run on the reference collaborators. *)

Example scenario_A :
  let run := middleware callbacks cfg_default (request "GET" JsUndefined) world_new in
  run.1 = Next None
  ∧ data (req_session run.2) !! "XSRF-SECRET" = Some (JsString "secret")
  ∧ cookies (res run.2) = [(JsString "XSRF-TOKEN", JsString "s-secret")]
  ∧ locals (res run.2) !! "xsrfToken" = Some (JsString "s-secret").
Proof. vm_compute. by repeat split. Qed.

Example scenario_B :
  (middleware callbacks cfg_default (request "POST" (JsString "sssss-S")) world_S).1
  = Next None.
Proof. reflexivity. Qed.

Example scenario_C :
  (middleware callbacks cfg_default (request "POST" JsUndefined) world_S).1 = Sent 412
  ∧ (middleware callbacks cfg_default (request "POST" (JsString "sssss-T")) world_S).1
    = Sent 412.
Proof. by split. Qed.

Example scenario_D :
  (middleware callbacks cfg_ignore_all (request "POST" JsUndefined) world_S).1 = Next None.
Proof. reflexivity. Qed.

Example scenario_E :
  (middleware callbacks cfg_alt_getter (alt_request (JsString "sssss-S")) world_S).1
  = Next None
  ∧ (middleware callbacks cfg_alt_getter (request "POST" (JsString "sssss-S")) world_S).1
    = Sent 412.
Proof. by split. Qed.

(** A failing session read ends in [next(err)], before any token is issued. *)
Example read_fault_propagates :
  middleware callbacks cfg_default (request "POST" JsUndefined) world_read_fault
  = (Next (Some (JsString "ECONNRESET")),
     mkWorld session_empty 0%nat fresh_response
       [E_session_get (JsString "XSRF-SECRET"); E_next (Some (JsString "ECONNRESET"))]).
Proof. reflexivity. Qed.

(** C2, as the specification states it, fails: with [ignoredMethods:
    ['GET']] a [GET] request is a member of the set, under any comparison,
    and yet it is verified and, without a token, answered with 412. *)
Lemma C2_uppercase_entry_not_bypassed :
  IGNORED_METHODS cfg_upper = JsArray [JsString "GET"]
  ∧ spec_case_insensitive_member "GET" [JsString "GET"] = true
  ∧ method_ignored cfg_upper (request "GET" JsUndefined) = Some false
  ∧ middleware callbacks cfg_upper (request "GET" JsUndefined) world_S
    = (Sent 412,
       log (with_status (issued cfg_upper (JsString "S") world_S1) 412)
         [E_req_get (JsString "X-XSRF-TOKEN"); E_verify (JsString "S") JsUndefined;
          E_sendStatus 412]).
Proof. repeat split; vm_compute; reflexivity. Qed.

(** C2 on the default methods: [GeT] is ignored. *)
Lemma C2_witness :
  middleware callbacks cfg_default (request "GeT" JsUndefined) world_S
  = (Next None, log (issued cfg_default (JsString "S") world_S1) [E_next None]).
Proof.
  assert (obtainSecret cfg_default world_S = ((JsNull, JsString "S"), world_S1))
    as Hres by (vm_compute; reflexivity).
  destruct (C2_lowercased_method_bypass callbacks cfg_default (request "GeT" JsUndefined)
              world_S world_S1 JsNull (JsString "S") Hres eq_refl
              [JsString "get"; JsString "head"; JsString "options"] eq_refl)
    as (_ & _ & Hci).
  apply Hci; reflexivity.
Defined.

(** C1 on the session that holds ['S']: a token created from ['S'] passes;
    no token, and a token created from ['T'], get 412. *)
Lemma C1_witness :
  (middleware callbacks cfg_default
     (request "POST" (toy_create (JsString "S") 7).1) world_S).1 = Next None
  ∧ (middleware callbacks cfg_default (request "POST" JsUndefined) world_S).1 = Sent 412
  ∧ (middleware callbacks cfg_default
       (request "POST" (toy_create (JsString "T") 7).1) world_S).1 = Sent 412.
Proof.
  assert (obtainSecret cfg_default world_S = ((JsNull, JsString "S"), world_S1))
    as Hres by (vm_compute; reflexivity).
  split; [|split].
  - destruct (C1_continuation_iff_verified callbacks cfg_default
                (request "POST" (toy_create (JsString "S") 7).1)
                world_S world_S1 JsNull (JsString "S") Hres eq_refl
                (toy_create (JsString "S") 7).1 eq_refl eq_refl)
      as (_ & _ & Haccept & _ & _).
    apply (Haccept (λ g, toy_verify_create "S" g ltac:(discriminate)) 7%nat eq_refl).
  - destruct (C1_continuation_iff_verified callbacks cfg_default
                (request "POST" JsUndefined)
                world_S world_S1 JsNull (JsString "S") Hres eq_refl
                JsUndefined eq_refl eq_refl)
      as (_ & _ & _ & Hempty & _).
    apply Hempty; [intros t'; apply toy_verify_falsy|reflexivity].
  - destruct (C1_continuation_iff_verified callbacks cfg_default
                (request "POST" (toy_create (JsString "T") 7).1)
                world_S world_S1 JsNull (JsString "S") Hres eq_refl
                (toy_create (JsString "T") 7).1 eq_refl eq_refl)
      as (_ & _ & _ & _ & Hother).
    apply (Hother (toy_verify_other "S") (JsString "T") 7%nat ltac:(discriminate) eq_refl).
Defined.

(** C3 on three requests: an ignored method, a predicate that ignores
    every request, and a verified [POST]. *)
Lemma C3_witness :
  middleware callbacks cfg_ignore_all (request "GET" JsUndefined) world_S
  = (Next None, log (issued cfg_ignore_all (JsString "S") world_S1) [E_next None])
  ∧ middleware callbacks cfg_ignore_all (request "POST" JsUndefined) world_S
    = (Next None,
       log (issued cfg_ignore_all (JsString "S") world_S1)
         [E_call (JsFunction 0); E_next None])
  ∧ middleware callbacks cfg_default (request "POST" JsUndefined) world_S
    = (Sent 412,
       log (with_status (issued cfg_default (JsString "S") world_S1) 412)
         [E_req_get (JsString "X-XSRF-TOKEN"); E_verify (JsString "S") JsUndefined;
          E_sendStatus 412]).
Proof.
  assert (obtainSecret cfg_ignore_all world_S = ((JsNull, JsString "S"), world_S1))
    as Hres by (vm_compute; reflexivity).
  assert (obtainSecret cfg_default world_S = ((JsNull, JsString "S"), world_S1))
    as Hres' by (vm_compute; reflexivity).
  split; [|split].
  - destruct (C3_rules_in_strict_order callbacks cfg_ignore_all (request "GET" JsUndefined)
                world_S world_S1 JsNull (JsString "S") Hres eq_refl) as (Hmethod & _ & _).
    exact (Hmethod eq_refl).
  - destruct (C3_rules_in_strict_order callbacks cfg_ignore_all (request "POST" JsUndefined)
                world_S world_S1 JsNull (JsString "S") Hres eq_refl) as (_ & Hignore & _).
    exact (Hignore eq_refl (JsBool true) eq_refl eq_refl).
  - destruct (C3_rules_in_strict_order callbacks cfg_default (request "POST" JsUndefined)
                world_S world_S1 JsNull (JsString "S") Hres' eq_refl) as (_ & _ & Hverify).
    exact (Hverify eq_refl JsNull eq_refl eq_refl JsUndefined eq_refl).
Defined.

(** C4 on a [POST] without token: the token is in [res.locals] and in
    the cookie although the request ends in a 412. *)
Lemma C4_witness :
  let run := middleware callbacks cfg_default (request "POST" JsUndefined) world_S in
  run.1 = Sent 412
  ∧ locals (res run.2) !! "xsrfToken" = Some (JsString "sss-S")
  ∧ cookies (res run.2) = [(JsString "XSRF-TOKEN", JsString "sss-S")].
Proof.
  assert (obtainSecret cfg_default world_S = ((JsNull, JsString "S"), world_S1))
    as Hres by (vm_compute; reflexivity).
  destruct (C4_token_published_before_decision callbacks cfg_default
              (request "POST" JsUndefined) world_S world_S1 JsNull (JsString "S")
              Hres eq_refl) as (_ & _ & _ & Hlocals & Hcookie).
  split; [reflexivity|]. split; [exact Hlocals|exact Hcookie].
Defined.

(** C6 on a [POST] without token. *)
Lemma C6_witness :
  rejected_with_412 world_S
    (middleware callbacks cfg_default (request "POST" JsUndefined) world_S).
Proof.
  assert (obtainSecret cfg_default world_S = ((JsNull, JsString "S"), world_S1))
    as Hres by (vm_compute; reflexivity).
  destruct (C6_failed_verification_is_412 callbacks cfg_default
              (request "POST" JsUndefined) world_S world_S1 JsNull (JsString "S")
              Hres eq_refl JsUndefined eq_refl eq_refl) as (_ & Hempty & _).
  apply Hempty; [intros t'; apply toy_verify_falsy|reflexivity].
Defined.

(** C5 on the four paths: a failing read, a stored secret, a new secret
    written, and a failing write. *)
Lemma C5_witness :
  obtainSecret cfg_default world_read_fault
  = ((JsString "ECONNRESET", JsUndefined),
     mkWorld session_empty 0%nat fresh_response
       [E_session_get (JsString "XSRF-SECRET")])
  ∧ obtainSecret cfg_default world_S
    = ((JsNull, JsString "S"),
       mkWorld session_S 3%nat fresh_response [E_session_get (JsString "XSRF-SECRET")])
  ∧ obtainSecret cfg_default world_new
    = ((JsNull, JsString "secret"),
       mkWorld session_secret 1%nat
         fresh_response
         [E_session_get (JsString "XSRF-SECRET"); E_secretSync;
          E_session_set (JsString "XSRF-SECRET") (JsString "secret")])
  ∧ obtainSecret cfg_default world_write_fault
    = ((JsString "EIO", JsUndefined),
       mkWorld session_empty 1%nat fresh_response
         [E_session_get (JsString "XSRF-SECRET"); E_secretSync;
          E_session_set (JsString "XSRF-SECRET") (JsString "secret")]).
Proof.
  assert (session.get (req_session world_read_fault) (SESSION_KEY cfg_default)
          = (JsString "ECONNRESET", JsUndefined, session_empty))
    as Hget1 by (vm_compute; reflexivity).
  assert (session.get (req_session world_S) (SESSION_KEY cfg_default)
          = (JsNull, JsString "S", session_S))
    as Hget2 by (vm_compute; reflexivity).
  assert (session.get (req_session world_new) (SESSION_KEY cfg_default)
          = (JsNull, JsUndefined, session_empty))
    as Hget3 by (vm_compute; reflexivity).
  assert (session.get (req_session world_write_fault) (SESSION_KEY cfg_default)
          = (JsNull, JsUndefined, session_write_fault))
    as Hget4 by (vm_compute; reflexivity).
  assert (session.set session_empty (SESSION_KEY cfg_default) (JsString "secret")
          = (JsNull, session_secret))
    as Hset3 by (vm_compute; reflexivity).
  assert (session.set session_write_fault (SESSION_KEY cfg_default) (JsString "secret")
          = (JsString "EIO", session_empty))
    as Hset4 by (vm_compute; reflexivity).
  split; [|split; [|split]].
  - destruct (C5_obtainSecret_algorithm cfg_default world_read_fault _ _ _ Hget1)
      as (Herr & _).
    exact (Herr eq_refl).
  - destruct (C5_obtainSecret_algorithm cfg_default world_S _ _ _ Hget2)
      as (_ & Hfound & _).
    exact (Hfound eq_refl eq_refl).
  - destruct (C5_obtainSecret_algorithm cfg_default world_new _ _ _ Hget3)
      as (_ & _ & Hnew & _).
    destruct (Hnew eq_refl eq_refl (JsString "secret") 1%nat _ _ eq_refl Hset3)
      as [_ Hwritten].
    exact (Hwritten eq_refl).
  - destruct (C5_obtainSecret_algorithm cfg_default world_write_fault _ _ _ Hget4)
      as (_ & _ & Hnew & _).
    destruct (Hnew eq_refl eq_refl (JsString "secret") 1%nat _ _ eq_refl Hset4)
      as [Hfailed _].
    exact (Hfailed eq_refl).
Defined.

(** C7 on a session with a secret (no write) and on a new session (one
    write over three requests, and the secret stays). *)
Lemma C7_witness :
  writes (trace (serve callbacks cfg_default
                   [request "GET" JsUndefined; request "POST" JsUndefined] world_S).2)
  = 0%nat
  ∧ writes (trace (serve callbacks cfg_default
                     [request "GET" JsUndefined; request "POST" JsUndefined;
                      request "GET" JsUndefined] world_new).2)
    = 1%nat
  ∧ stored (req_session
              (serve callbacks cfg_default
                 [request "GET" JsUndefined; request "POST" JsUndefined;
                  request "GET" JsUndefined] world_new).2)
      (JsString "XSRF-SECRET")
    = JsString "secret".
Proof.
  assert (session.get (req_session world_new) (SESSION_KEY cfg_default)
          = (JsNull, JsUndefined, session_empty))
    as Hget by (vm_compute; reflexivity).
  assert (session.set session_empty (SESSION_KEY cfg_default) (JsString "secret")
          = (JsNull, session_secret))
    as Hset by (vm_compute; reflexivity).
  destruct (C7_secret_written_once_never_overwritten (Sess := MapSession) (Rng := nat)
              callbacks cfg_default) as [Hholds Hlacks].
  split.
  - destruct (Hholds world_S (JsString "S") eq_refl eq_refl
                [request "GET" JsUndefined; request "POST" JsUndefined]) as [Hzero _].
    exact Hzero.
  - destruct (Hlacks world_new _ _ _ Hget eq_refl eq_refl (request "GET" JsUndefined))
      as [_ Hlater].
    exact (Hlater (JsString "secret") 1%nat _ _ eq_refl Hset eq_refl eq_refl
             [request "POST" JsUndefined; request "GET" JsUndefined]).
Defined.

(** C8 on a new session: the second resolution finds the secret that the
    first one generated. *)
Lemma C8_witness :
  (obtainSecret cfg_default (obtainSecret cfg_default world_new).2).1.2
  = JsString "secret".
Proof.
  assert (obtainSecret cfg_default world_new
          = ((JsNull, JsString "secret"), (obtainSecret cfg_default world_new).2))
    as Hfirst by (vm_compute; reflexivity).
  assert (obtainSecret cfg_default (obtainSecret cfg_default world_new).2
          = ((JsNull, (obtainSecret cfg_default (obtainSecret cfg_default world_new).2).1.2),
             (obtainSecret cfg_default (obtainSecret cfg_default world_new).2).2))
    as Hsecond by (vm_compute; reflexivity).
  assert (∀ g : nat, truthy (csrfTokens.secretSync g).1 = true)
    as Hgen by (intros g; reflexivity).
  destruct (C8_resolution_idempotent cfg_default world_new _ _ _ _ _ _
              Hgen Hfirst eq_refl Hsecond eq_refl) as [Hsame _].
  exact Hsame.
Defined.

(** C9 on an options object with falsy values only, and on one with
    truthy values only. *)
Lemma C9_witness :
  let cfg := module_exports
               (Some (options.mk JsNull (JsString "") JsUndefined (JsNumber 0)
                        JsUndefined JsUndefined)) in
  let cfg' := module_exports
                (Some (options.mk (JsArray [JsString ""]) (JsString "csrf")
                         (JsString "X-CSRF") (JsString "secret")
                         JsUndefined JsUndefined)) in
  (IGNORED_METHODS cfg = JsArray [JsString "get"; JsString "head"; JsString "options"]
   ∧ COOKIE_NAME cfg = JsString "XSRF-TOKEN"
   ∧ HEADER_NAME cfg = JsString "X-XSRF-TOKEN"
   ∧ SESSION_KEY cfg = JsString "XSRF-SECRET")
  ∧ (IGNORED_METHODS cfg' = JsArray [JsString ""]
     ∧ COOKIE_NAME cfg' = JsString "csrf"
     ∧ HEADER_NAME cfg' = JsString "X-CSRF"
     ∧ SESSION_KEY cfg' = JsString "secret").
Proof.
  cbn zeta. split.
  - destruct (C9_falsy_options_take_defaults
                (options.mk JsNull (JsString "") JsUndefined (JsNumber 0)
                   JsUndefined JsUndefined))
      as ((Hc & Hh & Hs & Hm) & _).
    exact (conj (Hm eq_refl) (conj (Hc eq_refl) (conj (Hh eq_refl) (Hs eq_refl)))).
  - destruct (C9_falsy_options_take_defaults
                (options.mk (JsArray [JsString ""]) (JsString "csrf")
                   (JsString "X-CSRF") (JsString "secret") JsUndefined JsUndefined))
      as (_ & (Hc & Hh & Hs & Hm) & _).
    exact (conj (Hm eq_refl) (conj (Hc eq_refl) (conj (Hh eq_refl) (Hs eq_refl)))).
Defined.

(** C10 on [ignore: true] and [getToken: 'query']. *)
Lemma C10_witness :
  ignore (module_exports (Some (options.with_ignore options.empty (JsBool true)))) = JsNull
  ∧ getToken (module_exports (Some (options.with_getToken options.empty (JsString "query"))))
    = HeaderGetter (JsString "X-XSRF-TOKEN").
Proof.
  split.
  - destruct (C10_non_function_callbacks_discarded options.empty (JsBool true) eq_refl)
      as (Hignore & _).
    exact Hignore.
  - destruct (C10_non_function_callbacks_discarded options.empty (JsString "query") eq_refl)
      as (_ & _ & Hget & _).
    exact Hget.
Defined.

(** * Further properties of the middleware *)

(** ** Shape of a run *)

Lemma reads_app (t u : list Event) : reads (t ++ u) = (reads t + reads u)%nat.
Proof. unfold reads. by rewrite filter_app, length_app. Qed.

(** Events that do not belong to secret resolution: no read, no write, no
    session event at all. *)
Lemma after_resolution_counts (u : list Event) :
  existsb is_resolution_event u = false →
  reads u = 0%nat ∧ writes u = 0%nat
  ∧ (∀ k, ¬ In (E_session_get k) u) ∧ (∀ k v, ¬ In (E_session_set k v) u).
Proof.
  induction u as [|x u IH]; [by repeat split; intros; intros []|].
  cbn. intros [Hx Hu]%orb_false_iff. destruct (IH Hu) as (Hr & Hw & Hg & Hs).
  change (x :: u) with ([x] ++ u). rewrite reads_app, writes_app, Hr, Hw.
  repeat split; try by destruct x.
  - intros k [->|Hin]; [done|]. by apply (Hg k).
  - intros k v [->|Hin]; [done|]. by apply (Hs k v).
Qed.

Lemma gate_events_after_resolution (t : list Event) :
  forallb is_gate_event t = true → existsb is_resolution_event t = false.
Proof. apply none_of_them. by intros []. Qed.

Section Shape.
Context {Sess Rng : Type} `{!session.t Sess} `{!csrfTokens.t Rng}.
Variable fn_apply : nat → req.t → Response → JsValue.
Implicit Types (w : World Sess Rng) (cfg : Config) (rq : req.t).

(** The events of a resolution: the read and, when a secret is generated,
    the generation and the write, all under the configured key. *)
Lemma obtainSecret_trace cfg w :
  ∃ t, trace (obtainSecret cfg w).2 = trace w ++ E_session_get (SESSION_KEY cfg) :: t
       ∧ (t = [] ∨ ∃ x, t = [E_secretSync; E_session_set (SESSION_KEY cfg) x]).
Proof.
  rewrite obtainSecret_unfold. cbn zeta.
  destruct (session.get _ _) as [[e v] s1].
  destruct (truthy e); [exists []; auto|].
  destruct (truthy v); [exists []; auto|].
  destruct (csrfTokens.secretSync _) as [x g1].
  destruct (session.set _ _ _) as [e2 s2].
  destruct (truthy e2); (eexists; split; [done|right; by eexists]).
Qed.

(** After resolution the middleware adds no resolution event. *)
Lemma middleware_after_resolution cfg rq w :
  ∃ u, trace (middleware fn_apply cfg rq w).2 = trace (obtainSecret cfg w).2 ++ u
       ∧ existsb is_resolution_event u = false.
Proof.
  rewrite middleware_unfold.
  destruct (obtainSecret cfg w) as [[e s] w1]. cbn [snd].
  destruct (truthy e); [by eexists|].
  pose proof (issued_unfold cfg s w1) as Hi. unfold issued in Hi.
  destruct (issue cfg s w1) as [tok w2]. cbn [snd] in Hi.
  destruct (gate_effect fn_apply cfg rq s w2) as (_ & _ & _ & _ & t & Ht & Hev).
  cbn zeta in Ht. rewrite Ht. subst w2. cbn [trace].
  eexists. split; [by rewrite <- app_assoc|].
  rewrite existsb_app. cbn. by apply gate_events_after_resolution.
Qed.

(** X5. One request touches the session through the configured key only:
    it reads it exactly once, first of all, and writes it at most once;
    no other key is read or written. *)
Theorem X5_session_touched_at_one_key cfg rq w :
  ∃ added,
    trace (middleware fn_apply cfg rq w).2
    = trace w ++ E_session_get (SESSION_KEY cfg) :: added
    ∧ reads (E_session_get (SESSION_KEY cfg) :: added) = 1%nat
    ∧ (writes added ≤ 1)%nat
    ∧ (∀ k, In (E_session_get k) added → False)
    ∧ (∀ k v, In (E_session_set k v) added → k = SESSION_KEY cfg).
Proof.
  destruct (middleware_after_resolution cfg rq w) as (u & Hu & Hnone).
  destruct (obtainSecret_trace cfg w) as (t & Ht & Hshape).
  destruct (after_resolution_counts u Hnone) as (Hr & Hw & Hg & Hs).
  exists (t ++ u). rewrite Hu, Ht, <- app_assoc. split; [done|].
  change (E_session_get (SESSION_KEY cfg) :: t ++ u)
    with ([E_session_get (SESSION_KEY cfg)] ++ t ++ u).
  rewrite !reads_app, writes_app, Hr, Hw.
  destruct Hshape as [->|[x ->]].
  - split; [reflexivity|]. split; [vm_compute; lia|]. split.
    + intros k Hin. by apply (Hg k).
    + intros k v Hin. by destruct (Hs k v).
  - split; [reflexivity|]. split; [vm_compute; lia|]. split.
    + intros k [|[|Hin]]; try done. by apply (Hg k).
    + intros k v [|[[= <- _]|Hin]]; try done. by destruct (Hs k v).
Qed.
End Shape.

(** ** How a run ends *)

Lemma resolution_events_no_continuation (t : list Event) :
  forallb is_resolution_event t = true → existsb is_continuation t = false.
Proof. apply none_of_them. by intros []. Qed.


Section Ending.
Context {Sess Rng : Type} `{!session.t Sess} `{!csrfTokens.t Rng}.
Variable fn_apply : nat → req.t → Response → JsValue.
Implicit Types (w : World Sess Rng) (cfg : Config) (rq : req.t).

(** X1. When secret resolution ends with an error, of the read or of the
    write, the middleware calls [next] with that very error and does
    nothing else: the response is as it was (no [xsrfToken], no cookie, no
    status), and no token is created or verified. *)
Theorem X1_session_error_goes_to_next cfg rq w (e s : JsValue) w1 :
  obtainSecret cfg w = ((e, s), w1) → truthy e = true →
  middleware fn_apply cfg rq w = (Next (Some e), log w1 [E_next (Some e)])
  ∧ res w1 = res w
  ∧ (∃ t, trace w1 = trace w ++ t ∧ forallb is_resolution_event t = true)
  ∧ (let '(e0, v0, s1) := session.get (req_session w) (SESSION_KEY cfg) in
     if truthy e0 then e = e0
     else truthy v0 = false
          ∧ e = (session.set s1 (SESSION_KEY cfg)
                   (csrfTokens.secretSync (entropy w)).1).1).
Proof.
  intros Hres He. rewrite middleware_unfold, Hres, He.
  destruct (obtainSecret_effect cfg w) as (Hr & t & Ht & Hev).
  rewrite Hres in Hr, Ht. cbn in Hr, Ht.
  split; [done|]. split; [done|]. split; [by exists t|].
  revert Hres. rewrite obtainSecret_unfold. cbn zeta.
  destruct (session.get _ _) as [[e0 v0] s1].
  destruct (truthy e0) eqn:He0; [by intros [= <- _ _]|].
  destruct (truthy v0) eqn:Hv0; [intros [= <- _ _]; done|].
  destruct (csrfTokens.secretSync _) as [x g1]. cbn [fst].
  destruct (session.set _ _ _) as [e2 s2]. cbn [fst].
  destruct (truthy e2) eqn:He2; intros [= <- _ _]; done.
Qed.

(** The gate sets the status exactly when it ends in a 412. *)
Lemma gate_status cfg rq (s : JsValue) w :
  statusSent (res (gate fn_apply cfg rq s w).2)
  = match (gate fn_apply cfg rq s w).1 with
    | Sent c => Some c
    | _ => statusSent (res w)
    end
  ∧ ∀ c, (gate fn_apply cfg rq s w).1 = Sent c → c = 412.
Proof.
  rewrite gate_unfold.
  destruct (method_ignored cfg rq) as [[]|]; try done.
  destruct (ignore_result _ _ _ _) as [v|]; [|done].
  destruct (truthy v); [done|].
  destruct (token_of _ _ _ _) as [t|]; [|done]. cbn zeta.
  destruct (csrfTokens.verify s t); [done|]. split; [done|]. by intros c [= <-].
Qed.

(** X6. Of the response, one request changes [res.locals.xsrfToken] and
    nothing else in [res.locals]; it keeps the cookies that were set and
    adds at most one, named [COOKIE_NAME]; and it sends a status only when
    it ends the request, and then the status is 412. *)
Theorem X6_response_frame cfg rq w :
  (∀ f : string,
     f ≠ "xsrfToken" →
     locals (res (middleware fn_apply cfg rq w).2) !! f = locals (res w) !! f)
  ∧ (∃ new, cookies (res (middleware fn_apply cfg rq w).2) = cookies (res w) ++ new
            ∧ (length new ≤ 1)%nat
            ∧ ∀ c, In c new → c.1 = COOKIE_NAME cfg)
  ∧ statusSent (res (middleware fn_apply cfg rq w).2)
    = match (middleware fn_apply cfg rq w).1 with
      | Sent c => Some c
      | _ => statusSent (res w)
      end
  ∧ ∀ c, (middleware fn_apply cfg rq w).1 = Sent c → c = 412.
Proof.
  rewrite middleware_unfold.
  destruct (obtainSecret_effect cfg w) as (Hr & _).
  destruct (obtainSecret cfg w) as [[e s] w1]. cbn [snd] in Hr.
  destruct (truthy e).
  { cbn. rewrite Hr. split; [done|]. split; [|split; [done|intros c Hc; discriminate Hc]].
    exists []. rewrite app_nil_r. split; [done|]. split; [cbn; lia|by intros c []]. }
  pose proof (issued_unfold cfg s w1) as Hi. unfold issued in Hi.
  destruct (issue cfg s w1) as [tok w2]. cbn [snd] in Hi.
  destruct (gate_effect fn_apply cfg rq s w2) as (_ & _ & Hloc & Hck & _).
  destruct (gate_status cfg rq s w2) as [Hst H412].
  cbn zeta in Hloc, Hck.
  assert (locals (res w2) = <["xsrfToken" := issued_token s w1]> (locals (res w))
          ∧ cookies (res w2) = cookies (res w) ++ [(COOKIE_NAME cfg, issued_token s w1)]
          ∧ statusSent (res w2) = statusSent (res w)) as (Hl2 & Hc2 & Hs2)
    by (rewrite Hi; cbn; by rewrite Hr).
  rewrite Hloc, Hck, Hst, Hl2, Hc2, Hs2.
  split; [intros f Hf; by rewrite lookup_insert_ne|].
  split; [|split; [done|exact H412]].
  eexists. split; [done|]. split; [cbn; lia|]. by intros c [<-|[]].
Qed.
End Ending.

(** ** The value of [ignoredMethods] *)



(** [h.indexOf(s) > -1] exactly when [s] occurs in [h] at some position. *)
Lemma string_indexOf_occurs (h s : string) :
  (string_indexOf h s >? -1)%Z = true
  ↔ ∃ n, String.substring n (String.length s) h = s.
Proof.
  unfold string_indexOf. destruct (String.index 0 s h) as [i|] eqn:Hi.
  - split; [intros _|intros _; apply Z.gtb_lt; lia].
    exists i. by apply (String.index_correct1 0).
  - split; [done|]. intros [n Hn]. exfalso.
    destruct s as [|c s].
    + apply String.index_correct4 in Hi. lia.
    + apply (String.index_correct3 0 n _ _ Hi); [done|lia|done].
Qed.

Section IgnoredMethods.
Context {Sess Rng : Type} `{!session.t Sess} `{!csrfTokens.t Rng}.
Variable fn_apply : nat → req.t → Response → JsValue.
Implicit Types (w : World Sess Rng) (cfg : Config) (rq : req.t).



(** X3. An [ignoredMethods] option that is a truthy boolean, number or
    function is taken as it is, and then [indexOf] cannot be called on it:
    every request whose secret resolution succeeds gets its token published
    and then fails with a TypeError, so that neither [next] nor
    [res.sendStatus] is called. *)
Theorem X3_ignoredMethods_without_indexOf (o : options.t) rq w (e s : JsValue) w1 :
  no_indexOf (options.ignoredMethods o) = true →
  truthy (options.ignoredMethods o) = true →
  obtainSecret (module_exports (Some o)) w = ((e, s), w1) → truthy e = false →
  IGNORED_METHODS (module_exports (Some o)) = options.ignoredMethods o
  ∧ middleware fn_apply (module_exports (Some o)) rq w
    = (TypeError, issued (module_exports (Some o)) s w1)
  ∧ ∃ t, trace (issued (module_exports (Some o)) s w1) = trace w ++ t
         ∧ existsb is_continuation t = false.
Proof.
  intros Hno Htr Hres He.
  assert (IGNORED_METHODS (module_exports (Some o)) = options.ignoredMethods o) as Hcfg.
  { unfold module_exports, js_or. cbn. by rewrite Htr. }
  split; [done|]. split.
  - rewrite (middleware_resolved fn_apply _ rq w w1 e s Hres He), gate_unfold.
    unfold method_ignored. rewrite Hcfg.
    by destruct (options.ignoredMethods o).
  - destruct (obtainSecret_effect (module_exports (Some o)) w) as (_ & t0 & Ht0 & Hev).
    rewrite Hres in Ht0. cbn in Ht0. rewrite issued_unfold. cbn [trace]. rewrite Ht0.
    eexists. split; [by rewrite <- app_assoc|].
    rewrite existsb_app. by rewrite (resolution_events_no_continuation t0 Hev).
Qed.

(** X4. When [ignoredMethods] is a string, [indexOf] searches it for a
    substring: a request bypasses verification exactly when its lowercased
    method occurs somewhere in that string, and the lookup never fails. *)
Theorem X4_string_of_methods_matches_substrings cfg rq (h : string) :
  IGNORED_METHODS cfg = JsString h →
  (method_ignored cfg rq = Some true
   ↔ ∃ n, String.substring n (String.length (toLowerCase (req.method rq))) h
          = toLowerCase (req.method rq))
  ∧ is_Some (method_ignored cfg rq)
  ∧ ∀ w (e s : JsValue) w1,
      obtainSecret cfg w = ((e, s), w1) → truthy e = false →
      (∃ n, String.substring n (String.length (toLowerCase (req.method rq))) h
            = toLowerCase (req.method rq)) →
      middleware fn_apply cfg rq w = (Next None, log (issued cfg s w1) [E_next None]).
Proof.
  intros Hh.
  assert (method_ignored cfg rq
          = Some (string_indexOf h (toLowerCase (req.method rq)) >? -1)%Z) as Hm
    by (unfold method_ignored; by rewrite Hh).
  assert (method_ignored cfg rq = Some true
          ↔ ∃ n, String.substring n (String.length (toLowerCase (req.method rq))) h
                 = toLowerCase (req.method rq)) as Hiff.
  { rewrite Hm, <- string_indexOf_occurs. split; [by intros [= ->]|by intros ->]. }
  split; [done|]. split; [rewrite Hm; by eexists|].
  intros w e s w1 Hres He Hocc. apply Hiff in Hocc.
  by rewrite (middleware_resolved fn_apply cfg rq w w1 e s Hres He), gate_unfold, Hocc.
Qed.
End IgnoredMethods.

(** ** The header name and a custom getter *)

(** The middleware reads five of the closure's variables; [HEADER_NAME]
    is read by the default getter only. *)
Lemma middleware_fields {Sess Rng : Type} `{!session.t Sess} `{!csrfTokens.t Rng}
    (fn_apply : nat → req.t → Response → JsValue) (cfg cfg' : Config)
    (rq : req.t) (w : World Sess Rng) :
  IGNORED_METHODS cfg = IGNORED_METHODS cfg' →
  COOKIE_NAME cfg = COOKIE_NAME cfg' →
  SESSION_KEY cfg = SESSION_KEY cfg' →
  ignore cfg = ignore cfg' →
  getToken cfg = getToken cfg' →
  middleware fn_apply cfg rq w = middleware fn_apply cfg' rq w.
Proof.
  destruct cfg, cfg'. cbn. by intros -> -> -> -> ->.
Qed.

(** X8. Once [options.getToken] is a function, [options.headerName] has no
    effect whatsoever: the middleware built with any other header name
    behaves the same on every request. *)
Theorem X8_headerName_unused_with_custom_getToken
    {Sess Rng : Type} `{!session.t Sess} `{!csrfTokens.t Rng}
    (fn_apply : nat → req.t → Response → JsValue)
    (o : options.t) (h : JsValue) (rq : req.t) (w : World Sess Rng) :
  is_function (options.getToken o) = true →
  middleware fn_apply (module_exports (Some (options.with_headerName o h))) rq w
  = middleware fn_apply (module_exports (Some o)) rq w.
Proof.
  intros Hf. apply middleware_fields; try done.
  unfold module_exports. cbn. by rewrite Hf.
Qed.

(** ** Tokens across requests, and two requests in flight *)

Section Across.
Context {Sess Rng : Type} `{!session.t Sess} `{!csrfTokens.t Rng}.
Context `{!LawfulSession Sess}.
Variable fn_apply : nat → req.t → Response → JsValue.
Implicit Types (w : World Sess Rng) (rq : req.t).



(** [obtainSecret] is the read followed by its callback. *)
Lemma obtainSecret_on_get cfg w :
  obtainSecret cfg w = bind (session_get (SESSION_KEY cfg)) (on_get cfg) w.
Proof.
  unfold obtainSecret, bind, on_get.
  by destruct (session_get (SESSION_KEY cfg) w) as [[err secret] w1].
Qed.

(** X9. No lock is held between the read and the write. When two requests
    of a session that has no secret have both read before either callback
    runs, and no store operation fails, each generates a secret of its own
    and writes it: two writes, the first request is handed the secret that
    the second one then overwrites, and the stored secret is the second. *)
Theorem X9_two_requests_in_flight_write_twice cfg w
    (e1 v1 e2 v2 xa e3 xb e4 : JsValue) (s1 s2 s3 s4 : Sess) (g1 g2 : Rng) :
  session.get (req_session w) (SESSION_KEY cfg) = (e1, v1, s1) →
  truthy e1 = false → truthy v1 = false →
  session.get s1 (SESSION_KEY cfg) = (e2, v2, s2) → truthy e2 = false →
  csrfTokens.secretSync (entropy w) = (xa, g1) →
  session.set s2 (SESSION_KEY cfg) xa = (e3, s3) → truthy e3 = false →
  csrfTokens.secretSync g1 = (xb, g2) →
  session.set s3 (SESSION_KEY cfg) xb = (e4, s4) → truthy e4 = false →
  two_in_flight cfg w
  = (((JsNull, xa), (JsNull, xb)),
     mkWorld s4 g2 (res w)
       (trace w ++ [E_session_get (SESSION_KEY cfg); E_session_get (SESSION_KEY cfg);
                    E_secretSync; E_session_set (SESSION_KEY cfg) xa;
                    E_secretSync; E_session_set (SESSION_KEY cfg) xb]))
  ∧ writes (trace (two_in_flight cfg w).2) = (writes (trace w) + 2)%nat
  ∧ stored s4 (SESSION_KEY cfg) = xb.
Proof.
  intros Hg1 He1 Hv1 Hg2 He2 Hgen1 Hs1 He3 Hgen2 Hs2 He4.
  assert (truthy v2 = false) as Hv2.
  { rewrite (get_stored _ _ _ _ _ Hg2 He2), (get_keeps _ _ _ _ _ Hg1).
    by rewrite <- (get_stored _ _ _ _ _ Hg1 He1). }
  assert (two_in_flight cfg w
          = (((JsNull, xa), (JsNull, xb)),
             mkWorld s4 g2 (res w)
               (trace w ++ [E_session_get (SESSION_KEY cfg);
                            E_session_get (SESSION_KEY cfg);
                            E_secretSync; E_session_set (SESSION_KEY cfg) xa;
                            E_secretSync; E_session_set (SESSION_KEY cfg) xb]))) as Hrun.
  { unfold two_in_flight, on_get, bind, session_get, secretSync, session_set, ret.
    repeat (cbn; progress rewrite ?Hg1, ?Hg2, ?He1, ?Hv1, ?Hgen1, ?Hs1, ?He3,
                                  ?He2, ?Hv2, ?Hgen2, ?Hs2, ?He4).
    cbn. by rewrite <- !app_assoc. }
  split; [done|]. rewrite Hrun. cbn [snd trace]. rewrite writes_app.
  split; [done|]. by eapply set_stored.
Qed.
End Across.

(** ** Concrete runs of the further properties *)

(** X1 on a session whose read fails with [ECONNRESET]. *)
Lemma X1_witness :
  middleware callbacks cfg_default (request "POST" JsUndefined) world_read_fault
  = (Next (Some (JsString "ECONNRESET")),
     log (obtainSecret cfg_default world_read_fault).2
       [E_next (Some (JsString "ECONNRESET"))])
  ∧ res (obtainSecret cfg_default world_read_fault).2 = res world_read_fault.
Proof.
  assert (obtainSecret cfg_default world_read_fault
          = ((JsString "ECONNRESET", JsUndefined),
             (obtainSecret cfg_default world_read_fault).2))
    as Hres by (vm_compute; reflexivity).
  destruct (X1_session_error_goes_to_next callbacks cfg_default
              (request "POST" JsUndefined) world_read_fault _ _ _ Hres eq_refl)
    as (Hrun & Hresp & _).
  by split.
Defined.


(** X3 on [ignoredMethods: true]. *)
Lemma X3_witness :
  middleware callbacks (module_exports (Some options_true_methods))
    (request "GET" JsUndefined) world_S
  = (TypeError, issued (module_exports (Some options_true_methods)) (JsString "S") world_S1).
Proof.
  assert (obtainSecret (module_exports (Some options_true_methods)) world_S
          = ((JsNull, JsString "S"), world_S1))
    as Hres by (vm_compute; reflexivity).
  destruct (X3_ignoredMethods_without_indexOf callbacks options_true_methods
              (request "GET" JsUndefined) world_S _ _ _ eq_refl eq_refl Hres eq_refl)
    as (_ & Hrun & _).
  exact Hrun.
Defined.

(** X4 on [ignoredMethods: 'get,head,options']: [HEAD] is found at
    position 4, and so is the method [AD,OP] at position 6. *)
Lemma X4_witness :
  middleware callbacks (module_exports (Some options_string_methods))
    (request "HEAD" JsUndefined) world_S
  = (Next None,
     log (issued (module_exports (Some options_string_methods)) (JsString "S") world_S1)
       [E_next None])
  ∧ middleware callbacks (module_exports (Some options_string_methods))
      (request "AD,OP" JsUndefined) world_S
    = (Next None,
       log (issued (module_exports (Some options_string_methods)) (JsString "S") world_S1)
         [E_next None]).
Proof.
  assert (obtainSecret (module_exports (Some options_string_methods)) world_S
          = ((JsNull, JsString "S"), world_S1))
    as Hres by (vm_compute; reflexivity).
  split.
  - destruct (X4_string_of_methods_matches_substrings callbacks
                (module_exports (Some options_string_methods))
                (request "HEAD" JsUndefined) "get,head,options" eq_refl)
      as (_ & _ & Hbypass).
    apply (Hbypass world_S _ _ _ Hres eq_refl). by exists 4%nat.
  - destruct (X4_string_of_methods_matches_substrings callbacks
                (module_exports (Some options_string_methods))
                (request "AD,OP" JsUndefined) "get,head,options" eq_refl)
      as (_ & _ & Hbypass).
    apply (Hbypass world_S _ _ _ Hres eq_refl). by exists 6%nat.
Defined.

(** X5 and X6 on a [POST] without token to a new session. *)
Lemma X5_witness :
  ∃ added,
    trace (middleware callbacks cfg_default (request "POST" JsUndefined) world_new).2
    = trace world_new ++ E_session_get (SESSION_KEY cfg_default) :: added
    ∧ reads (E_session_get (SESSION_KEY cfg_default) :: added) = 1%nat
    ∧ (writes added ≤ 1)%nat
    ∧ (∀ k, In (E_session_get k) added → False)
    ∧ (∀ k v, In (E_session_set k v) added → k = SESSION_KEY cfg_default).
Proof.
  exact (X5_session_touched_at_one_key callbacks cfg_default
           (request "POST" JsUndefined) world_new).
Defined.

Lemma X6_witness :
  locals (res (middleware callbacks cfg_default
                 (request "POST" JsUndefined) world_new).2) !! "user"
  = locals (res world_new) !! "user"
  ∧ statusSent (res (middleware callbacks cfg_default
                       (request "POST" JsUndefined) world_new).2) = Some 412.
Proof.
  destruct (X6_response_frame callbacks cfg_default (request "POST" JsUndefined) world_new)
    as (Hlocals & _ & Hstatus & _).
  split; [by apply Hlocals|exact Hstatus].
Defined.


(** X8 on a custom getter and the header name [X-Other]. *)
Lemma X8_witness :
  middleware callbacks
    (module_exports
       (Some (options.with_headerName
                (options.with_getToken options.empty (JsFunction 1))
                (JsString "X-Other"))))
    (alt_request (JsString "sssss-S")) world_S
  = middleware callbacks cfg_alt_getter (alt_request (JsString "sssss-S")) world_S.
Proof.
  exact (X8_headerName_unused_with_custom_getToken callbacks
           (options.with_getToken options.empty (JsFunction 1)) (JsString "X-Other")
           (alt_request (JsString "sssss-S")) world_S eq_refl).
Defined.

(** X9 on a new session: the first request is handed ['secret'] and the
    session ends up with ['secrets']. *)
Lemma X9_witness :
  (two_in_flight cfg_default world_new).1
  = ((JsNull, JsString "secret"), (JsNull, JsString "secrets"))
  ∧ writes (trace (two_in_flight cfg_default world_new).2) = 2%nat
  ∧ stored session_secrets (SESSION_KEY cfg_default) = JsString "secrets".
Proof.
  assert (session.get (req_session world_new) (SESSION_KEY cfg_default)
          = (JsNull, JsUndefined, session_empty))
    as Hg1 by (vm_compute; reflexivity).
  assert (session.get session_empty (SESSION_KEY cfg_default)
          = (JsNull, JsUndefined, session_empty))
    as Hg2 by (vm_compute; reflexivity).
  assert (csrfTokens.secretSync (entropy world_new) = (JsString "secret", 1%nat))
    as Hgen1 by (vm_compute; reflexivity).
  assert (session.set session_empty (SESSION_KEY cfg_default) (JsString "secret")
          = (JsNull, session_secret))
    as Hs1 by (vm_compute; reflexivity).
  assert (csrfTokens.secretSync 1%nat = (JsString "secrets", 2%nat))
    as Hgen2 by (vm_compute; reflexivity).
  assert (session.set session_secret (SESSION_KEY cfg_default) (JsString "secrets")
          = (JsNull, session_secrets))
    as Hs2 by (vm_compute; reflexivity).
  destruct (X9_two_requests_in_flight_write_twice cfg_default world_new
              _ _ _ _ _ _ _ _ _ _ _ _ _ _
              Hg1 eq_refl eq_refl Hg2 eq_refl Hgen1 Hs1 eq_refl Hgen2 Hs2 eq_refl)
    as (Hrun & Hwrites & Hstored).
  split; [by rewrite Hrun|]. split; [exact Hwrites|exact Hstored].
Defined.
